(** * Keyword RAG pipeline ([Kewords RAG/keyword_rag.py])

    A shallow embedding of the keyword retrieval pipeline: the Google Ads
    keyword fetcher, the FAISS-backed vector store with its two-file
    persistence, the GPT query wrapper and the statistics reporter.

    Conventions.
    - Python exceptions are values of [exn]; a call that may raise returns
      a [result].  A method that mutates [self] returns the new object
      next to its outcome, so the state left behind by a raising call can
      be inspected.
    - External services (the Ads API and the clock, the sentence-embedding
      model with FAISS's vector arithmetic, number formatting, the chat
      completion endpoint) are interfaces, declared as classes: every
      theorem holds for all their implementations.
    - A float32 similarity score is represented by an integer key that
      orders the same way (finite floats are totally ordered, so any
      monotone coding will do).  Currency amounts are rationals: Python's
      [int / int] is the correctly rounded quotient, the model keeps the
      exact one. *)

From Stdlib Require Import Ascii QArith.
From stdpp Require Import gmap strings list fin_maps sorting pretty.

Local Open Scope string_scope.

(** ** Exceptions and results *)

Inductive exn : Type :=
  | ValueError (msg : string)
  | IndexError (msg : string)
  | AssertionError
  | GoogleAdsException (msg : string)
  | RuntimeError (msg : string)
  | UnpicklingError (msg : string)
  | OtherException (cls msg : string).

(** [str(e)] as interpolated by an f-string. *)
Definition exn_str (e : exn) : string :=
  match e with
  | ValueError m | IndexError m | GoogleAdsException m
  | RuntimeError m | UnpicklingError m | OtherException _ m => m
  | AssertionError => EmptyString
  end.

Inductive result (A : Type) : Type :=
  | Ok (a : A)
  | Raise (e : exn).
Arguments Ok {A} a.
Arguments Raise {A} e.

(** Sequencing stops at the first raised exception. *)
Global Instance result_ret : MRet result := λ A a, Ok a.
Global Instance result_bind : MBind result := λ A B k r,
  match r with
  | Ok a => k a
  | Raise e => Raise e
  end.

(** ** Keyword records *)

(** [@dataclass KeywordData].  [timestamp] is a clock reading. *)
Record KeywordData : Type := mkKeywordData {
  keyword : string;
  search_volume : Z;
  competition : string;
  cpc_high : Q;
  cpc_low : Q;
  ad_impression_share : Q;
  top_of_page_cpc_high : Q;
  top_of_page_cpc_low : Q;
  currency_code : string;
  timestamp : Z
}.

(** ** The Ads API boundary *)

Inductive KeywordPlanCompetitionLevel : Type :=
  | UNSPECIFIED | UNKNOWN | LOW | MEDIUM | HIGH.

(** [competition.name] *)
Definition competition_name (c : KeywordPlanCompetitionLevel) : string :=
  match c with
  | UNSPECIFIED => "UNSPECIFIED"
  | UNKNOWN => "UNKNOWN"
  | LOW => "LOW"
  | MEDIUM => "MEDIUM"
  | HIGH => "HIGH"
  end.

(** A numeric metric the API did not supply is [None]. *)
Record KeywordIdeaMetrics : Type := mkMetrics {
  avg_monthly_searches : option Z;
  idea_competition : KeywordPlanCompetitionLevel;
  high_top_of_page_bid_micros : option Z;
  low_top_of_page_bid_micros : option Z
}.

Record KeywordIdea : Type := mkIdea {
  idea_text : string;
  keyword_idea_metrics : KeywordIdeaMetrics
}.

Inductive KeywordPlanNetwork : Type :=
  | GOOGLE_SEARCH | GOOGLE_SEARCH_AND_PARTNERS.

Record GenerateKeywordIdeasRequest : Type := mkRequest {
  req_customer_id : string;
  req_language : string;
  req_geo_target_constants : list string;
  req_keyword_seed : list string;
  req_keyword_plan_network : KeywordPlanNetwork
}.

(** ** Python truthiness and small string helpers *)

Definition truthy_int (x : option Z) : bool :=
  match x with
  | Some v => negb (v =? 0)%Z
  | None => false
  end.

Definition truthy_str (s : option string) : bool :=
  match s with
  | Some EmptyString | None => false
  | Some _ => true
  end.

(** [s.replace(c, '')] for a one-character [c]. *)
Fixpoint remove_char (c : ascii) (s : string) : string :=
  match s with
  | EmptyString => EmptyString
  | String a s' =>
      if Ascii.eqb a c then remove_char c s' else String a (remove_char c s')
  end.

(** [x or 0] *)
Definition or_zero (x : option Z) : Z :=
  match x with
  | Some v => v
  | None => 0%Z
  end.

(** [x / 1_000_000 if x else 0] *)
Definition micros_to_units (x : option Z) : Q :=
  match x with
  | Some v => if truthy_int x then inject_Z v / inject_Z 1000000 else 0
  | None => 0
  end.

(** ** GoogleAdsKeywordExtractor *)

Record GoogleAdsKeywordExtractor : Type := mkExtractor {
  customer_id : option string
}.

(** [__init__]: [self.customer_id = None] (the client handle is opaque). *)
Definition new_extractor : GoogleAdsKeywordExtractor :=
  {| customer_id := None |}.

Definition set_customer_id (self : GoogleAdsKeywordExtractor) (cid : string)
    : GoogleAdsKeywordExtractor :=
  {| customer_id := Some (remove_char "-"%char cid) |}.

(** The upstream [KeywordPlanIdeaService.generate_keyword_ideas], and the
    clock: [now i] is the i-th reading of [datetime.now()] in one fetch. *)
Class AdsApi : Type := {
  generate_keyword_ideas :
    GenerateKeywordIdeasRequest → result (list KeywordIdea);
  now : nat → Z
}.

Section Extractor.
Context `{!AdsApi}.

Definition keyword_data_of_idea (i : nat) (idea : KeywordIdea) : KeywordData :=
  let m := keyword_idea_metrics idea in
  {| keyword := idea_text idea;
     search_volume := or_zero (avg_monthly_searches m);
     competition := competition_name (idea_competition m);
     cpc_high := micros_to_units (high_top_of_page_bid_micros m);
     cpc_low := micros_to_units (low_top_of_page_bid_micros m);
     ad_impression_share := 0;
     top_of_page_cpc_high := micros_to_units (high_top_of_page_bid_micros m);
     top_of_page_cpc_low := micros_to_units (low_top_of_page_bid_micros m);
     currency_code := "USD";
     timestamp := now i |}.

Definition build_request (cid : string) (keywords : list string)
    (location_ids : option (list string)) (language_id : string)
    : GenerateKeywordIdeasRequest :=
  {| req_customer_id := cid;
     req_language := "languageConstants/" +:+ language_id;
     req_geo_target_constants :=
       match location_ids with
       | Some (loc :: locs) =>
           (λ l, "geoTargetConstants/" +:+ l) <$> (loc :: locs)
       | _ => []
       end;
     req_keyword_seed := keywords;
     req_keyword_plan_network := GOOGLE_SEARCH |}.

(** [get_keyword_ideas].  The first component lists the requests sent
    upstream during the call. *)
Definition get_keyword_ideas (self : GoogleAdsKeywordExtractor)
    (keywords : list string) (location_ids : option (list string))
    (language_id : string)
    : list GenerateKeywordIdeasRequest * result (list KeywordData) :=
  if negb (truthy_str (customer_id self)) then
    ([], Raise (ValueError "Customer ID must be set before making API calls"))
  else
    let request :=
      build_request (default EmptyString (customer_id self)) keywords location_ids
        language_id in
    match generate_keyword_ideas request with
    | Ok response => ([request], Ok (imap keyword_data_of_idea response))
    | Raise ex => ([request], Raise ex)
    end.

End Extractor.

(** ** KeywordVectorStore *)

(** [-FLT_MAX] under the score coding: FAISS fills an unused result slot
    with this distance and with label [-1]. *)
Definition NEG_FLT_MAX : Z := (-2139095039)%Z.

(** [l[i]] on a Python list: a negative index counts from the end. *)
Definition py_getitem {A} (l : list A) (i : Z) : result A :=
  let j := if (i <? 0)%Z then (Z.of_nat (length l) + i)%Z else i in
  if (j <? 0)%Z then Raise (IndexError "list index out of range")
  else
    match l !! Z.to_nat j with
    | Some x => Ok x
    | None => Raise (IndexError "list index out of range")
    end.

(** A (score, label) pair ranks before another when its score is at
    least as high. *)
Definition score_ge (a b : Z * Z) : Prop := (b.1 ≤ a.1)%Z.

Global Instance score_ge_dec a b : Decision (score_ge a b) :=
  decide (b.1 ≤ a.1)%Z.

(** The sentence-embedding model ([SentenceTransformer.encode] on one
    text, a row of [model_dim] floats) with FAISS's row normalisation and
    inner product on such rows. *)
Class EmbeddingModel : Type := {
  vec : Type;
  model_dim : nat;
  model_encode1 : string → vec;
  normalize_L2 : vec → vec;
  inner_product : vec → vec → Z
}.

(** The format specifications [:.2f], [:,] and [:.3f]. *)
Class Formatting : Type := {
  format_2f : Q → string;
  format_comma : Z → string;
  format_3f : Z → string
}.

Section VectorStore.
Context `{!EmbeddingModel, !Formatting}.

(** [faiss.IndexFlatIP]: the dimension and the stored rows. *)
Record IndexFlatIP : Type := mkIndex {
  faiss_d : nat;
  faiss_xb : list vec
}.

Definition ntotal (ix : IndexFlatIP) : nat := length (faiss_xb ix).

Record KeywordVectorStore : Type := mkStore {
  index : option IndexFlatIP;
  keyword_data : list KeywordData;
  embeddings : list vec
}.

(** [__init__] *)
Definition new_store : KeywordVectorStore :=
  {| index := None; keyword_data := []; embeddings := [] |}.

(** The text embedded for a record (the f-string of [add_keywords]). *)
Definition keyword_text (kd : KeywordData) : string :=
  "Keyword: " +:+ keyword kd +:+
  " | Search Volume: " +:+ pretty (search_volume kd) +:+
  " | Competition: " +:+ competition kd +:+
  " | CPC: $" +:+ format_2f (cpc_low kd) +:+
  "-$" +:+ format_2f (cpc_high kd).

(** [model.encode(texts)]: one row per text. *)
Definition model_encode (texts : list string) : list vec :=
  model_encode1 <$> texts.

(** [x.shape[1]] on the array returned by [encode]: an empty batch comes
    back one-dimensional, with shape [(0,)]. *)
Definition shape1 (x : list vec) : result nat :=
  match x with
  | [] => Raise (IndexError "tuple index out of range")
  | _ :: _ => Ok model_dim
  end.

(** [faiss.normalize_L2(x)] reads [x.shape[1]], then rescales each row. *)
Definition faiss_normalize_L2 (x : list vec) : result (list vec) :=
  _ ← shape1 x; Ok (normalize_L2 <$> x).

(** [index.add(x)]: [n, d = x.shape; assert d == self.d]. *)
Definition index_add (ix : IndexFlatIP) (x : list vec) : result IndexFlatIP :=
  d ← shape1 x;
  if decide (d = faiss_d ix)
  then Ok {| faiss_d := faiss_d ix; faiss_xb := faiss_xb ix ++ x |}
  else Raise AssertionError.

Definition add_keywords (self : KeywordVectorStore)
    (keyword_data_list : list KeywordData)
    : KeywordVectorStore * result unit :=
  let texts := keyword_text <$> keyword_data_list in
  let embs := model_encode texts in
  let created :=
    match index self with
    | None =>
        dimension ← shape1 embs;
        Ok {| faiss_d := dimension; faiss_xb := [] |}
    | Some ix => Ok ix
    end in
  match created with
  | Raise e => (self, Raise e)
  | Ok ix =>
      let self1 :=
        {| index := Some ix; keyword_data := keyword_data self;
           embeddings := embeddings self |} in
      match faiss_normalize_L2 embs with
      | Raise e => (self1, Raise e)
      | Ok embs' =>
          match index_add ix embs' with
          | Raise e => (self1, Raise e)
          | Ok ix' =>
              ({| index := Some ix';
                  keyword_data := keyword_data self ++ keyword_data_list;
                  embeddings := embeddings self ++ embs' |}, Ok ())
          end
      end
  end.

(** Score and label of every stored row against the query. *)
Definition scored_rows (q : vec) (xb : list vec) : list (Z * Z) :=
  imap (λ i x, (inner_product q x, Z.of_nat i)) xb.

(** FAISS's k-nearest search by inner product.  A row enters the result
    heap only when its score beats the current threshold, which starts
    at [-FLT_MAX]; the heap is read out best first and the slots never
    filled keep [(-FLT_MAX, -1)]. *)
Definition knn_inner_product (q : vec) (xb : list vec) (k : nat)
    : list (Z * Z) :=
  let hits :=
    merge_sort score_ge
      (filter (λ c, (NEG_FLT_MAX < c.1)%Z) (scored_rows q xb)) in
  take k hits ++ replicate (k - length hits) (NEG_FLT_MAX, (-1)%Z).

(** [index.search(x, k)] for a one-row query:
    [assert d == self.d; assert k > 0]. *)
Definition index_search (ix : IndexFlatIP) (q : vec) (k : Z)
    : result (list (Z * Z)) :=
  if decide (model_dim = faiss_d ix) then
    if (0 <? k)%Z then Ok (knn_inner_product q (faiss_xb ix) (Z.to_nat k))
    else Raise AssertionError
  else Raise AssertionError.

(** The loop over [zip(scores[0], indices[0])]. *)
Fixpoint collect_results (kds : list KeywordData) (hits : list (Z * Z))
    : result (list (KeywordData * Z)) :=
  match hits with
  | [] => Ok []
  | (score, idx) :: rest =>
      if (idx <? Z.of_nat (length kds))%Z then
        kd ← py_getitem kds idx;
        results ← collect_results kds rest;
        Ok ((kd, score) :: results)
      else collect_results kds rest
  end.

Definition search (self : KeywordVectorStore) (query : string) (k : Z)
    : result (list (KeywordData * Z)) :=
  match index self with
  | None => Ok []
  | Some ix =>
      if decide (length (keyword_data self) = 0) then Ok []
      else
        let query_embedding := normalize_L2 (model_encode1 query) in
        hits ← index_search ix query_embedding k;
        collect_results (keyword_data self) hits
  end.

(** *** Persistence *)

(** What a path can hold: an index written by [faiss.write_index], the
    dictionary pickled by [save], or anything else. *)
Inductive file : Type :=
  | FaissIndexFile (ix : IndexFlatIP)
  | PickleFile (kds : list KeywordData) (embs : list vec)
  | OtherFile (content : string).

Definition save (self : KeywordVectorStore) (path : string)
    (fs : gmap string file) : gmap string file :=
  let fs1 :=
    match index self with
    | Some ix => <[path +:+ ".index" := FaissIndexFile ix]> fs
    | None => fs
    end in
  <[path +:+ ".pkl" := PickleFile (keyword_data self) (embeddings self)]> fs1.

(** The first [if os.path.exists] block of [load]. *)
Definition load_index (self : KeywordVectorStore) (path : string)
    (fs : gmap string file) : KeywordVectorStore * result unit :=
  match fs !! (path +:+ ".index") with
  | None => (self, Ok ())
  | Some (FaissIndexFile ix) =>
      ({| index := Some ix; keyword_data := keyword_data self;
          embeddings := embeddings self |}, Ok ())
  | Some _ => (self, Raise (RuntimeError "read_index failed"))
  end.

(** The second [if os.path.exists] block of [load]. *)
Definition load_records (self : KeywordVectorStore) (path : string)
    (fs : gmap string file) : KeywordVectorStore * result unit :=
  match fs !! (path +:+ ".pkl") with
  | None => (self, Ok ())
  | Some (PickleFile kds embs) =>
      ({| index := index self; keyword_data := kds; embeddings := embs |},
       Ok ())
  | Some _ => (self, Raise (UnpicklingError "invalid load key"))
  end.

Definition load (self : KeywordVectorStore) (path : string)
    (fs : gmap string file) : KeywordVectorStore * result unit :=
  match load_index self path fs with
  | (self1, Ok _) => load_records self1 path fs
  | (self1, Raise e) => (self1, Raise e)
  end.

End VectorStore.

(** ** GPTKeywordRAG *)

Record ChatRequest : Type := mkChatRequest {
  chat_model : string;
  chat_messages : list (string * string);
  chat_max_tokens : Z;
  chat_temperature : Q
}.

(** A completion: the [message.content] of each choice. *)
Record ChatCompletion : Type := mkChatCompletion {
  choices : list string
}.

(** [client.chat.completions.create] *)
Class ChatApi : Type := {
  chat_completions_create : ChatRequest → result ChatCompletion
}.

(** A value of the dictionary returned by [get_keyword_stats]. *)
Inductive stat : Type :=
  | StatInt (n : Z)
  | StatFloat (x : Q)
  | StatDict (d : gmap string Z).

Definition nl : string := String "010"%char EmptyString.

Definition system_prompt : string :=
"You are an expert digital marketing analyst with access to Google Ads keyword data. 
        Use the provided keyword data to answer questions about search volume, competition, costs, and marketing opportunities.
        
        Provide specific, data-driven insights based on the keyword metrics. When making recommendations, 
        consider search volume, competition levels, and cost-per-click data.
        
        If asked about keywords not in the data, suggest related alternatives from the available data.".

(** [Series.mean()] *)
Definition mean (xs : list Q) : Q :=
  (foldr Qplus 0 xs / inject_Z (Z.of_nat (length xs)))%Q.

(** [Series.median()] of an integer column: the middle of the sorted
    values, or the mean of the two middle ones. *)
Definition median (xs : list Z) : Q :=
  let sorted := merge_sort Z.le xs in
  let n := length xs in
  let lower : Z := sorted !!! (n / 2 - 1) in
  let upper : Z := sorted !!! (n / 2) in
  if Nat.even n then ((inject_Z lower + inject_Z upper) / inject_Z 2)%Q
  else inject_Z upper.

(** [Series.value_counts().to_dict()] *)
Definition value_counts (xs : list string) : gmap string Z :=
  foldr (λ x d, <[x := (default 0 (d !! x) + 1)%Z]> d) ∅ xs.

Section RAG.
Context `{!EmbeddingModel, !Formatting, !ChatApi}.

Record GPTKeywordRAG : Type := mkRAG {
  ads_extractor : GoogleAdsKeywordExtractor;
  vector_store : KeywordVectorStore;
  vector_store_path : string
}.

(** One entry of the context block, numbered from 1. *)
Definition format_entry (i : nat) (r : KeywordData * Z) : string :=
  pretty (S i) +:+ ". Keyword: '" +:+ keyword r.1 +:+ "'" +:+ nl +:+
  "   - Search Volume: " +:+ format_comma (search_volume r.1) +:+
    " monthly searches" +:+ nl +:+
  "   - Competition: " +:+ competition r.1 +:+ nl +:+
  "   - CPC Range: $" +:+ format_2f (cpc_low r.1) +:+
    " - $" +:+ format_2f (cpc_high r.1) +:+ nl +:+
  "   - Relevance Score: " +:+ format_3f r.2 +:+ nl +:+ nl.

Definition _format_keyword_context (keyword_results : list (KeywordData * Z))
    : string :=
  match keyword_results with
  | [] => "No relevant keyword data found."
  | _ :: _ =>
      foldl String.append ("Relevant Keyword Data:" +:+ nl +:+ nl)
        (imap format_entry keyword_results)
  end.

(** The request assembled by [query] once the records are retrieved. *)
Definition completion_request (user_query : string)
    (keyword_results : list (KeywordData * Z))
    (include_recommendations : bool) : ChatRequest :=
  let keyword_context := _format_keyword_context keyword_results in
  let user_prompt :=
    "User Query: " +:+ user_query +:+ nl +:+ nl +:+
    keyword_context +:+ nl +:+ nl +:+
    "Please provide a comprehensive answer based on the keyword data above." in
  let user_prompt :=
    if include_recommendations then
      user_prompt +:+ nl +:+ nl +:+
      "Include strategic recommendations for keyword targeting and campaign optimization."
    else user_prompt in
  {| chat_model := "gpt-4";
     chat_messages := [("system", system_prompt); ("user", user_prompt)];
     chat_max_tokens := 1500;
     chat_temperature := 0.7 |}.

(** [query]: the retrieval runs before the [try]; the completion call and
    the read of [choices[0]] run inside it, and [except Exception] turns
    whatever they raise into the returned text. *)
Definition query (self : GPTKeywordRAG) (user_query : string)
    (max_keywords : Z) (include_recommendations : bool) : result string :=
  keyword_results ← search (vector_store self) user_query max_keywords;
  let attempt :=
    response ←
      chat_completions_create
        (completion_request user_query keyword_results include_recommendations);
    py_getitem (choices response) 0 in
  match attempt with
  | Ok content => Ok content
  | Raise e => Ok ("Error generating response: " +:+ exn_str e)
  end.

Definition get_keyword_stats (self : GPTKeywordRAG) : gmap string stat :=
  match keyword_data (vector_store self) with
  | [] => {[ "total_keywords" := StatInt 0 ]}
  | _ :: _ =>
      let df := keyword_data (vector_store self) in
      list_to_map
        [ ("total_keywords", StatInt (Z.of_nat (length df)));
          ("avg_search_volume",
             StatFloat (mean ((λ kd, inject_Z (search_volume kd)) <$> df)));
          ("median_search_volume", StatFloat (median (search_volume <$> df)));
          ("avg_cpc", StatFloat (mean (cpc_high <$> df)));
          ("competition_distribution",
             StatDict (value_counts (competition <$> df)));
          ("high_volume_keywords",
             StatInt (Z.of_nat (length
               (filter (λ kd, (10000 < search_volume kd)%Z) df))));
          ("low_competition_keywords",
             StatInt (Z.of_nat (length
               (filter (λ kd, competition kd = "LOW") df)))) ]
  end.

End RAG.

(** ** Ingestion and start-up *)

Section Ingestion.
Context `{!AdsApi, !EmbeddingModel, !Formatting}.

(** [_load_existing_data]: [load] runs inside [try/except Exception], and
    its outcome is only logged; what [load] assigned before raising
    stays. *)
Definition _load_existing_data (self : GPTKeywordRAG)
    (fs : gmap string file) : GPTKeywordRAG :=
  {| ads_extractor := ads_extractor self;
     vector_store :=
       (load (vector_store self) (vector_store_path self) fs).1;
     vector_store_path := vector_store_path self |}.

(** [GPTKeywordRAG.__init__]; the API clients it builds are opaque. *)
Definition new_rag (customer_id : string) (vector_store_path : string)
    (fs : gmap string file) : GPTKeywordRAG :=
  _load_existing_data
    {| ads_extractor := set_customer_id new_extractor customer_id;
       vector_store := new_store;
       vector_store_path := vector_store_path |} fs.

(** [update_keyword_data]: fetch, add, save; the [except] clause logs
    and re-raises.  Returns the object, the file system, the requests
    sent upstream and the outcome. *)
Definition update_keyword_data (self : GPTKeywordRAG)
    (keywords : list string) (location_ids : option (list string))
    (fs : gmap string file)
    : GPTKeywordRAG * gmap string file *
      list GenerateKeywordIdeasRequest * result unit :=
  let fetched :=
    get_keyword_ideas (ads_extractor self) keywords location_ids "1000" in
  match fetched.2 with
  | Raise e => (self, fs, fetched.1, Raise e)
  | Ok keyword_data_list =>
      let added := add_keywords (vector_store self) keyword_data_list in
      let self' :=
        {| ads_extractor := ads_extractor self;
           vector_store := added.1;
           vector_store_path := vector_store_path self |} in
      match added.2 with
      | Raise e => (self', fs, fetched.1, Raise e)
      | Ok _ =>
          (self', save added.1 (vector_store_path self) fs, fetched.1, Ok ())
      end
  end.

(** [setup_rag_system] of [example_usage.py]: [env] is the process
    environment read by [os.getenv]. *)
Definition setup_rag_system (env : gmap string string)
    (fs : gmap string file) : result GPTKeywordRAG :=
  if negb (truthy_str (env !! "OPENAI_API_KEY")) then
    Raise (ValueError "OPENAI_API_KEY environment variable is required")
  else if negb (truthy_str (env !! "GOOGLE_ADS_CUSTOMER_ID")) then
    Raise (ValueError "GOOGLE_ADS_CUSTOMER_ID environment variable is required")
  else
    Ok (new_rag (default EmptyString (env !! "GOOGLE_ADS_CUSTOMER_ID"))
          "keyword_vector_store" fs).

End Ingestion.

(** ** Specification-side definitions *)

(** What the conversion of a micros-denominated field must produce: the
    amount divided by one million, and zero when the field is missing. *)
Definition micros_converted (field : option Z) (value : Q) : Prop :=
  match field with
  | Some micros => (value == micros # 1000000)%Q
  | None => (value == 0)%Q
  end.

Definition count_converted (field : option Z) (value : Z) : Prop :=
  match field with
  | Some n => value = n
  | None => value = 0%Z
  end.

(** A record carries the metrics of the idea it was built from. *)
Definition idea_converted (idea : KeywordIdea) (kd : KeywordData) : Prop :=
  let m := keyword_idea_metrics idea in
  micros_converted (high_top_of_page_bid_micros m) (cpc_high kd) ∧
  micros_converted (low_top_of_page_bid_micros m) (cpc_low kd) ∧
  micros_converted (high_top_of_page_bid_micros m) (top_of_page_cpc_high kd) ∧
  micros_converted (low_top_of_page_bid_micros m) (top_of_page_cpc_low kd) ∧
  count_converted (avg_monthly_searches m) (search_volume kd) ∧
  (ad_impression_share kd == 0)%Q ∧
  (high_top_of_page_bid_micros m = Some 2500000%Z → (cpc_high kd == 2.5)%Q).

Section StoreSpec.
Context `{!EmbeddingModel, !Formatting}.

(** The vector the store derives from a record. *)
Definition embed_record (kd : KeywordData) : vec :=
  normalize_L2 (model_encode1 (keyword_text kd)).

(** The rows held by the FAISS index, none before the index exists. *)
Definition stored_vectors (self : KeywordVectorStore) : list vec :=
  match index self with
  | Some ix => faiss_xb ix
  | None => []
  end.

(** The index, when present, has the dimension of the embedding model. *)
Definition index_dim_ok (self : KeywordVectorStore) : Prop :=
  ∀ ix, index self = Some ix → faiss_d ix = model_dim.

(** Records, index rows and kept embeddings agree position by position. *)
Definition store_inv (self : KeywordVectorStore) : Prop :=
  stored_vectors self = embed_record <$> keyword_data self ∧
  embeddings self = embed_record <$> keyword_data self ∧
  index_dim_ok self.

(** A populated store: the index exists and there are records. *)
Definition populated (self : KeywordVectorStore) : Prop :=
  is_Some (index self) ∧ keyword_data self ≠ [].

(** The stores observed after each of a series of [add_keywords] calls. *)
Fixpoint add_calls (self : KeywordVectorStore)
    (batches : list (list KeywordData)) : list KeywordVectorStore :=
  match batches with
  | [] => []
  | batch :: rest =>
      let self' := (add_keywords self batch).1 in
      self' :: add_calls self' rest
  end.

(** The rows that enter the result heap, best first. *)
Definition ranked_hits (q : vec) (xb : list vec) : list (Z * Z) :=
  merge_sort score_ge
    (filter (λ c, (NEG_FLT_MAX < c.1)%Z) (scored_rows q xb)).

End StoreSpec.

(** ** Fixtures: small implementations of the external interfaces *)

Definition demo_idea : KeywordIdea :=
  {| idea_text := "seo services";
     keyword_idea_metrics :=
       {| avg_monthly_searches := None;
          idea_competition := LOW;
          high_top_of_page_bid_micros := Some 2500000%Z;
          low_top_of_page_bid_micros := None |} |}.

Definition demo_ads : AdsApi :=
  {| generate_keyword_ideas := λ _, Ok [demo_idea];
     now := λ i, Z.of_nat i |}.

Definition demo_extractor : GoogleAdsKeywordExtractor :=
  set_customer_id new_extractor "123-456-7890".

(** A two-dimensional toy model: a text is embedded as its length and a
    constant, rows are left unscaled, the score is the dot product. *)
Definition demo_model : EmbeddingModel :=
  {| vec := list Z;
     model_dim := 2;
     model_encode1 := λ text, [Z.of_nat (String.length text); 1%Z];
     normalize_L2 := λ v, v;
     inner_product := λ u v, foldr Z.add 0%Z (zip_with Z.mul u v) |}.

Definition demo_formatting : Formatting :=
  {| format_2f := λ _, "0.00";
     format_comma := λ n, pretty n;
     format_3f := λ s, pretty s |}.

(** A completion endpoint that is unreachable. *)
Definition failing_chat : ChatApi :=
  {| chat_completions_create := λ _,
       Raise (OtherException "APIConnectionError" "Connection error.") |}.

Definition demo_kd : KeywordData :=
  {| keyword := "seo"; search_volume := 100; competition := "LOW";
     cpc_high := 0; cpc_low := 0; ad_impression_share := 0;
     top_of_page_cpc_high := 0; top_of_page_cpc_low := 0;
     currency_code := "USD"; timestamp := 0 |}.

(** The store after one call of [add_keywords] with one record. *)
Definition demo_store : @KeywordVectorStore demo_model :=
  (@add_keywords demo_model demo_formatting new_store [demo_kd]).1.

Definition demo_rag (store : @KeywordVectorStore demo_model)
    : @GPTKeywordRAG demo_model :=
  {| ads_extractor := demo_extractor; vector_store := store;
     vector_store_path := "keyword_store" |}.

Definition volume_kd (n : Z) : KeywordData :=
  {| keyword := "kw"; search_volume := n; competition := "LOW";
     cpc_high := 0; cpc_low := 0; ad_impression_share := 0;
     top_of_page_cpc_high := 0; top_of_page_cpc_low := 0;
     currency_code := "USD"; timestamp := 0 |}.

(** An upstream service with nothing to suggest. *)
Definition no_ideas_ads : AdsApi :=
  {| generate_keyword_ideas := λ _, Ok [];
     now := λ i, Z.of_nat i |}.

(** A completion endpoint that answers with one choice. *)
Definition answering_chat : ChatApi :=
  {| chat_completions_create := λ _,
       Ok {| choices := ["Target the long-tail keywords first."] |} |}.

(** An object whose extractor has no customer id. *)
Definition unbound_rag : @GPTKeywordRAG demo_model :=
  {| ads_extractor := new_extractor; vector_store := demo_store;
     vector_store_path := "keyword_store" |}.

(** An object holding five records, with search volumes 100 to 500. *)
Definition five_rag : @GPTKeywordRAG demo_model :=
  demo_rag {| index := None;
              keyword_data := volume_kd <$> [100; 200; 300; 400; 500]%Z;
              embeddings := [] |}.

(** * The Metrics Fetcher *)

Lemma micros_to_units_converted (field : option Z) :
  micros_converted field (micros_to_units field).
Proof.
  destruct field as [v|]; simpl; [|reflexivity].
  destruct (Z.eqb_spec v 0) as [->|Hv]; simpl.
  - reflexivity.
  - unfold Qdiv, Qeq; simpl. lia.
Qed.

Lemma or_zero_converted (field : option Z) :
  count_converted field (or_zero field).
Proof. by destruct field. Qed.

Lemma keyword_data_of_idea_converted `{!AdsApi} (i : nat) (idea : KeywordIdea) :
  idea_converted idea (keyword_data_of_idea i idea).
Proof.
  unfold idea_converted, keyword_data_of_idea; simpl.
  repeat split;
    try apply micros_to_units_converted; try apply or_zero_converted.
  intros ->. reflexivity.
Qed.

(** C6: whenever the fetch returns records, exactly one request went
    upstream, and every idea of its response was turned, in order, into a
    record whose bid amounts are the micros fields divided by 1,000,000
    (2,500,000 micros giving 2.50) and whose missing numeric fields are 0. *)
Theorem C6_micros_to_currency_units `{!AdsApi}
    (self : GoogleAdsKeywordExtractor) (keywords : list string)
    (location_ids : option (list string)) (language_id : string)
    (calls : list GenerateKeywordIdeasRequest) (kds : list KeywordData) :
  get_keyword_ideas self keywords location_ids language_id = (calls, Ok kds) →
  ∃ request response,
    calls = [request] ∧
    generate_keyword_ideas request = Ok response ∧
    Forall2 idea_converted response kds.
Proof.
  unfold get_keyword_ideas.
  destruct (negb (truthy_str (customer_id self))); [done|].
  set (request := build_request _ _ _ _).
  destruct (generate_keyword_ideas request) as [response|ex] eqn:Hresp; [|done].
  intros [= <- <-]. exists request, response. split_and!; [done..|].
  apply Forall2_same_length_lookup. split; [by rewrite length_imap|].
  intros i idea kd Hidea Hkd.
  rewrite list_lookup_imap, Hidea in Hkd. injection Hkd as <-.
  apply keyword_data_of_idea_converted.
Qed.

Lemma C6_micros_to_currency_units_witness :
  ∃ request response,
    [build_request "1234567890" ["seo"] None "1000"] = [request] ∧
    @generate_keyword_ideas demo_ads request = Ok response ∧
    Forall2 idea_converted response
      [@keyword_data_of_idea demo_ads 0 demo_idea].
Proof.
  apply (@C6_micros_to_currency_units demo_ads demo_extractor ["seo"] None "1000").
  reflexivity.
Defined.

(** C7: a fetch made while no customer id is bound raises [ValueError]
    (the configuration error of this code) and sends nothing upstream. *)
Theorem C7_fetch_requires_customer_id `{!AdsApi}
    (self : GoogleAdsKeywordExtractor) (keywords : list string)
    (location_ids : option (list string)) (language_id : string) :
  customer_id self = None →
  get_keyword_ideas self keywords location_ids language_id =
    ([], Raise (ValueError "Customer ID must be set before making API calls")).
Proof. unfold get_keyword_ideas. by intros ->. Qed.

Lemma C7_fetch_requires_customer_id_witness :
  @get_keyword_ideas demo_ads new_extractor ["seo"; "ppc"] (Some ["2840"]) "1000" =
    ([], Raise (ValueError "Customer ID must be set before making API calls")).
Proof.
  apply (@C7_fetch_requires_customer_id demo_ads new_extractor).
  reflexivity.
Defined.

(** * The Embedding Index *)

Section StoreProperties.
Context `{!EmbeddingModel, !Formatting}.

Lemma new_store_inv : store_inv new_store.
Proof. by repeat split. Qed.

(** An empty batch raises at the first read of [shape[1]] and leaves the
    store as it was. *)
Lemma add_keywords_empty (self : KeywordVectorStore) :
  add_keywords self [] =
    (self, Raise (IndexError "tuple index out of range")).
Proof. by destruct self as [[ix|] kds embs]. Qed.

Lemma shape1_nonempty (x : list vec) : x ≠ [] → shape1 x = Ok model_dim.
Proof. by destruct x. Qed.

Lemma normalize_encode_batch (batch : list KeywordData) :
  batch ≠ [] →
  faiss_normalize_L2 (model_encode (keyword_text <$> batch)) =
    Ok (embed_record <$> batch).
Proof.
  intros Hne. unfold faiss_normalize_L2, model_encode.
  rewrite shape1_nonempty by (by destruct batch).
  unfold embed_record. by rewrite <-!list_fmap_compose.
Qed.

Lemma index_add_ok (ix : IndexFlatIP) (x : list vec) :
  x ≠ [] → faiss_d ix = model_dim →
  index_add ix x = Ok {| faiss_d := model_dim; faiss_xb := faiss_xb ix ++ x |}.
Proof.
  intros Hne Hd. unfold index_add. rewrite shape1_nonempty by done.
  cbn. rewrite decide_True by done. by rewrite Hd.
Qed.

(** A non-empty batch is appended whole, to all three sequences. *)
Lemma add_keywords_nonempty (self : KeywordVectorStore)
    (batch : list KeywordData) :
  index_dim_ok self → batch ≠ [] →
  add_keywords self batch =
    ({| index := Some {| faiss_d := model_dim;
                         faiss_xb := stored_vectors self ++
                                     (embed_record <$> batch) |};
        keyword_data := keyword_data self ++ batch;
        embeddings := embeddings self ++ (embed_record <$> batch) |}, Ok ()).
Proof.
  intros Hdim Hne.
  assert (embed_record <$> batch ≠ []) as Hne' by (by destruct batch).
  unfold add_keywords, stored_vectors.
  rewrite normalize_encode_batch by done.
  destruct (index self) as [ix|] eqn:Hix.
  - cbn. by rewrite index_add_ok by auto.
  - rewrite shape1_nonempty by (by destruct batch).
    cbn. by rewrite index_add_ok by auto.
Qed.

Lemma add_keywords_inv (self : KeywordVectorStore) (batch : list KeywordData) :
  store_inv self → store_inv (add_keywords self batch).1.
Proof.
  intros (Hxb & Hemb & Hdim).
  destruct batch as [|kd batch].
  { rewrite add_keywords_empty. by repeat split. }
  assert (kd :: batch ≠ []) as Hne by done.
  remember (kd :: batch) as b eqn:Hb. clear Hb.
  rewrite add_keywords_nonempty by done.
  split_and!.
  - unfold stored_vectors at 1. cbn [fst index faiss_xb keyword_data].
    by rewrite Hxb, fmap_app.
  - cbn [fst embeddings keyword_data]. by rewrite Hemb, fmap_app.
  - intros ix. cbn [fst index]. by intros [= <-].
Qed.

Lemma add_calls_inv (batches : list (list KeywordData))
    (self : KeywordVectorStore) :
  store_inv self → Forall store_inv (add_calls self batches).
Proof.
  revert self. induction batches as [|batch rest IH]; intros self Hinv; simpl.
  - constructor.
  - constructor; [|apply IH]; by apply add_keywords_inv.
Qed.

(** Nothing is lost or reordered on the way: after a series of calls the
    record list is the old one followed by the batches, in call order. *)
Lemma add_keywords_series_records (batches : list (list KeywordData))
    (self : KeywordVectorStore) :
  store_inv self →
  keyword_data (foldl (λ st batch, (add_keywords st batch).1) self batches) =
    (keyword_data self ++ concat batches)%list.
Proof.
  revert self. induction batches as [|batch rest IH]; intros self Hinv; simpl.
  - by rewrite app_nil_r.
  - rewrite IH by (by apply add_keywords_inv). rewrite (assoc_L (++)). f_equal.
    destruct batch as [|kd batch].
    + by rewrite add_keywords_empty, app_nil_r.
    + by rewrite add_keywords_nonempty by (done || apply Hinv).
Qed.

(** C1: take any series of batches added to an empty store.  After every
    call the record list, the index and the kept embeddings have the same
    length, and the vector at each position is the one derived from the
    record at that position. *)
Theorem C1_records_and_vectors_stay_paired (batches : list (list KeywordData)) :
  Forall
    (λ self,
       length (keyword_data self) = length (stored_vectors self) ∧
       length (keyword_data self) = length (embeddings self) ∧
       ∀ i kd, keyword_data self !! i = Some kd →
         stored_vectors self !! i = Some (embed_record kd) ∧
         embeddings self !! i = Some (embed_record kd))
    (add_calls new_store batches).
Proof.
  eapply Forall_impl; [apply add_calls_inv, new_store_inv|].
  intros self (Hxb & Hemb & _). rewrite Hxb, Hemb, length_fmap.
  split_and!; [done..|].
  intros i kd Hkd. by rewrite list_lookup_fmap, Hkd.
Qed.

(** C3: a search on a store that never received a record returns the
    empty list; nothing is raised, whatever the query and [k]. *)
Theorem C3_search_empty_store (query : string) (k : Z) :
  search new_store query k = Ok [].
Proof. reflexivity. Qed.

(** *** The nearest-neighbour search *)

Local Instance score_ge_total : Total score_ge.
Proof. intros a b. unfold score_ge. lia. Qed.

Local Instance score_ge_trans : Transitive score_ge.
Proof. intros a b c. unfold score_ge. lia. Qed.

Lemma StronglySorted_sublist {A} (R : relation A) (l1 l2 : list A) :
  l1 `sublist_of` l2 → StronglySorted R l2 → StronglySorted R l1.
Proof.
  induction 1 as [|x l1 l2 Hsub IH|x l1 l2 Hsub IH]; intros Hs.
  - constructor.
  - apply StronglySorted_cons in Hs as [Hx Hs]. constructor; [by apply IH|].
    rewrite Forall_forall in Hx |- *. intros y Hy. apply Hx.
    by apply (sublist_subseteq _ _ Hsub).
  - apply StronglySorted_cons in Hs as [_ Hs]. by apply IH.
Qed.

Lemma StronglySorted_lookup {A} (R : relation A) (l : list A) i j a b :
  StronglySorted R l → i < j → l !! i = Some a → l !! j = Some b → R a b.
Proof.
  intros Hs. revert i j. induction Hs as [|x l Hs IH Hx]; intros i j Hij Hi Hj.
  - done.
  - destruct j as [|j]; [lia|]. destruct i as [|i]; simpl in *.
    + injection Hi as <-. rewrite Forall_forall in Hx.
      apply Hx. by eapply list_elem_of_lookup_2.
    + apply (IH i j); [lia|done..].
Qed.

Lemma ranked_hits_elem (q : vec) (xb : list vec) (c : Z * Z) :
  c ∈ ranked_hits q xb →
  (NEG_FLT_MAX < c.1)%Z ∧ ∃ i x, xb !! i = Some x ∧ c = (inner_product q x, Z.of_nat i).
Proof.
  unfold ranked_hits. rewrite merge_sort_Permutation, list_elem_of_filter.
  intros [Hlt Hin]. split; [done|].
  apply elem_of_lookup_imap_1 in Hin as (i & x & -> & Hx). eauto.
Qed.

Lemma knn_inner_product_length (q : vec) (xb : list vec) (k : nat) :
  length (knn_inner_product q xb k) = k.
Proof.
  unfold knn_inner_product.
  rewrite length_app, length_take, length_replicate. lia.
Qed.

Lemma knn_inner_product_sorted (q : vec) (xb : list vec) (k : nat) :
  StronglySorted score_ge (knn_inner_product q xb k).
Proof.
  unfold knn_inner_product. fold (ranked_hits q xb).
  apply StronglySorted_app_2.
  - intros c1 c2 Hc1 Hc2.
    apply elem_of_replicate_inv in Hc2 as ->.
    apply (subseteq_take k) in Hc1.
    apply ranked_hits_elem in Hc1 as [Hlt _].
    unfold score_ge; simpl. lia.
  - apply (StronglySorted_sublist _ _ (ranked_hits q xb)); [apply sublist_take|].
    apply StronglySorted_merge_sort; apply _.
  - generalize (k - length (ranked_hits q xb)). intros n.
    induction n as [|n IH]; simpl; constructor; [done|].
    apply Forall_replicate. unfold score_ge; simpl. lia.
Qed.

(** Every label is a row number of the index, or the filler [-1]. *)
Lemma knn_inner_product_labels (q : vec) (xb : list vec) (k : nat) :
  Forall (λ c, c.2 = (-1)%Z ∨ (0 ≤ c.2 < Z.of_nat (length xb))%Z)
    (knn_inner_product q xb k).
Proof.
  unfold knn_inner_product. fold (ranked_hits q xb).
  apply Forall_app. split.
  - apply Forall_forall. intros c Hc. right.
    apply (subseteq_take k), ranked_hits_elem in Hc as [_ (i & x & Hx & ->)].
    apply lookup_lt_Some in Hx. simpl. lia.
  - apply Forall_replicate. by left.
Qed.

Lemma py_getitem_in_range {A} (l : list A) (i : Z) :
  (- Z.of_nat (length l) ≤ i < Z.of_nat (length l))%Z →
  ∃ x, py_getitem l i = Ok x.
Proof.
  intros Hi. unfold py_getitem.
  set (j := if (i <? 0)%Z then (Z.of_nat (length l) + i)%Z else i).
  assert (0 ≤ j < Z.of_nat (length l))%Z as Hj.
  { unfold j. destruct (Z.ltb_spec i 0); lia. }
  destruct (Z.ltb_spec j 0); [lia|].
  destruct (lookup_lt_is_Some_2 l (Z.to_nat j)) as [x Hx]; [lia|].
  rewrite Hx. eauto.
Qed.

(** On a non-empty record list the loop never raises: it keeps, in
    order, one entry for each hit whose label is below the record count. *)
Lemma collect_results_sublist (kds : list KeywordData) (hits : list (Z * Z)) :
  kds ≠ [] →
  Forall (λ c, (-1 ≤ c.2)%Z) hits →
  ∃ res, collect_results kds hits = Ok res ∧ res.*2 `sublist_of` hits.*1.
Proof.
  intros Hne. induction 1 as [|[score idx] hits Hidx _ IH]; simpl.
  { eexists. split; [done|]. constructor. }
  destruct IH as (res & -> & Hsub).
  destruct (Z.ltb_spec idx (Z.of_nat (length kds))) as [Hlt|Hge].
  - destruct (py_getitem_in_range kds idx) as [kd ->].
    { destruct kds; [done|]. simpl in *. lia. }
    eexists. split; [done|]. simpl. by constructor.
  - eexists. split; [done|]. by constructor.
Qed.

(** C2: for a positive [k], on a store whose index has the dimension of
    the embedding model, a search returns a list of at most [k] pairs
    whose scores never increase from one position to a later one. *)
Theorem C2_search_at_most_k_sorted (self : KeywordVectorStore)
    (query : string) (k : Z) :
  (0 < k)%Z → index_dim_ok self →
  ∃ res, search self query k = Ok res ∧
    (Z.of_nat (length res) ≤ k)%Z ∧
    ∀ i j a b, i < j → res !! i = Some a → res !! j = Some b → (b.2 ≤ a.2)%Z.
Proof.
  intros Hk Hdim. unfold search.
  destruct (index self) as [ix|] eqn:Hix.
  2:{ exists []. split_and!; [done|simpl; lia|]. by intros ???? _ ?. }
  case_decide as Hlen.
  { exists []. split_and!; [done|simpl; lia|]. by intros ???? _ ?. }
  unfold index_search. rewrite decide_True by (symmetry; auto).
  destruct (Z.ltb_spec 0 k); [|lia]. cbn.
  set (hits := knn_inner_product _ _ _).
  destruct (collect_results_sublist (keyword_data self) hits) as (res & -> & Hsub).
  { by destruct (keyword_data self). }
  { eapply Forall_impl; [apply knn_inner_product_labels|]. simpl. lia. }
  exists res. split_and!; [done| |].
  - apply sublist_length in Hsub.
    rewrite !length_fmap in Hsub. unfold hits in Hsub.
    rewrite knn_inner_product_length in Hsub. lia.
  - intros i j a b Hij Ha Hb.
    assert (StronglySorted (λ x y : Z, (y ≤ x)%Z) (res.*2)) as Hs.
    { apply (StronglySorted_sublist _ _ _ Hsub).
      apply (StronglySorted_fmap _ score_ge); [done|].
      apply knn_inner_product_sorted. }
    apply (StronglySorted_lookup _ _ i j a.2 b.2 Hs Hij);
      by rewrite list_lookup_fmap, ?Ha, ?Hb.
Qed.

(** With records and index rows paired, no label reaches the record
    count, so every one of the [k] result slots yields an entry: the
    filler label [-1] is below the count too, and indexes the last
    record. *)
Lemma collect_results_keeps_all (kds : list KeywordData) (hits : list (Z * Z)) :
  kds ≠ [] →
  Forall (λ c, (-1 ≤ c.2 < Z.of_nat (length kds))%Z) hits →
  ∃ res, collect_results kds hits = Ok res ∧ length res = length hits.
Proof.
  intros Hne. induction 1 as [|[score idx] hits Hidx _ IH]; simpl.
  { by eexists. }
  destruct IH as (res & -> & Hlen). simpl in Hidx.
  destruct (Z.ltb_spec idx (Z.of_nat (length kds))) as [Hlt|Hge]; [|lia].
  destruct (py_getitem_in_range kds idx) as [kd ->].
  { destruct kds; [done|]. simpl in *. lia. }
  eexists. split; [done|]. simpl. by rewrite Hlen.
Qed.

Lemma search_returns_k_entries (self : KeywordVectorStore)
    (query : string) (k : Z) :
  (0 < k)%Z → store_inv self → keyword_data self ≠ [] →
  ∃ res, search self query k = Ok res ∧ length res = Z.to_nat k.
Proof.
  intros Hk (Hxb & _ & Hdim) Hne. unfold search.
  unfold stored_vectors in Hxb.
  destruct (index self) as [ix|] eqn:Hix.
  2:{ destruct (keyword_data self); [done|]. by simplify_eq/=. }
  rewrite decide_False by (by destruct (keyword_data self)).
  unfold index_search. rewrite decide_True by (symmetry; auto).
  destruct (Z.ltb_spec 0 k); [|lia]. cbn.
  set (hits := knn_inner_product _ _ _).
  destruct (collect_results_keeps_all (keyword_data self) hits)
    as (res & -> & Hlen); [done| |].
  { eapply Forall_impl; [apply knn_inner_product_labels|]. simpl.
    intros c. rewrite Hxb, length_fmap. lia. }
  exists res. split; [done|].
  by rewrite Hlen; unfold hits; rewrite knn_inner_product_length.
Qed.

(** * The Persistence Layer *)

Lemma index_pkl_paths_differ (path : string) :
  path +:+ ".index" ≠ path +:+ ".pkl".
Proof. intros Heq. by apply (inj (String.append path)) in Heq. Qed.

Lemma load_after_save (self : KeywordVectorStore) (path : string)
    (fs : gmap string file) (other : KeywordVectorStore) :
  is_Some (index self) →
  load other path (save self path fs) = (self, Ok ()).
Proof.
  intros [ix Hix]. unfold load, load_index, load_records, save. rewrite Hix.
  rewrite lookup_insert_ne by (apply not_eq_sym, index_pkl_paths_differ).
  rewrite lookup_insert_eq. cbn. rewrite lookup_insert_eq.
  destruct self as [ix' kds embs]. simpl in *. by subst.
Qed.

(** C4: save a populated store under any path, then load that path into
    a fresh store.  The load raises nothing and rebuilds the saved store,
    so every search gives the same records with the same scores in the
    same order. *)
Theorem C4_save_then_load_same_search (self : KeywordVectorStore)
    (path : string) (fs : gmap string file) (query : string) (k : Z) :
  populated self →
  load new_store path (save self path fs) = (self, Ok ()) ∧
  search (load new_store path (save self path fs)).1 query k =
    search self query k.
Proof.
  intros [Hix _]. by rewrite load_after_save.
Qed.

(** *** Loading when artifacts are missing *)

Lemma load_nothing (self : KeywordVectorStore) (path : string)
    (fs : gmap string file) :
  fs !! (path +:+ ".index") = None → fs !! (path +:+ ".pkl") = None →
  load self path fs = (self, Ok ()).
Proof. intros Hi Hp. unfold load, load_index, load_records. by rewrite Hi, Hp. Qed.

Lemma load_idempotent (self : KeywordVectorStore) (path : string)
    (fs : gmap string file) :
  load (load self path fs).1 path fs = load self path fs.
Proof.
  unfold load, load_index, load_records.
  destruct (fs !! (path +:+ ".index")) as [[ix|kds embs|c]|];
    destruct (fs !! (path +:+ ".pkl")) as [[ix'|kds' embs'|c']|]; try done;
    by destruct self.
Qed.

(** C5 (amended): [load] checks the two artifacts one by one.  With both
    absent it changes nothing and raises nothing, so a fresh store stays
    empty.  With the index file absent the index is left as it was, with
    the records bundle absent the records and embeddings are left as they
    were; the artifact that is present is still read: a lone records
    bundle replaces the records and embeddings by its contents, a lone
    index file replaces the index by its contents, and neither raises.
    Loading a second time from the same files changes nothing more. *)
Theorem C5_load_with_missing_artifacts (self : KeywordVectorStore)
    (path : string) (fs : gmap string file) :
  (fs !! (path +:+ ".index") = None → fs !! (path +:+ ".pkl") = None →
   load self path fs = (self, Ok ())) ∧
  (fs !! (path +:+ ".index") = None →
   index (load self path fs).1 = index self) ∧
  (fs !! (path +:+ ".pkl") = None →
   keyword_data (load self path fs).1 = keyword_data self ∧
   embeddings (load self path fs).1 = embeddings self) ∧
  (∀ kds embs,
     fs !! (path +:+ ".index") = None →
     fs !! (path +:+ ".pkl") = Some (PickleFile kds embs) →
     load self path fs =
       ({| index := index self; keyword_data := kds; embeddings := embs |},
        Ok ())) ∧
  (∀ ix,
     fs !! (path +:+ ".pkl") = None →
     fs !! (path +:+ ".index") = Some (FaissIndexFile ix) →
     load self path fs =
       ({| index := Some ix; keyword_data := keyword_data self;
           embeddings := embeddings self |}, Ok ())) ∧
  load (load self path fs).1 path fs = load self path fs.
Proof.
  split_and!; [apply load_nothing| | | | |apply load_idempotent].
  - intros Hi. unfold load, load_index, load_records. rewrite Hi.
    by destruct (fs !! (path +:+ ".pkl")) as [[]|].
  - intros Hp. unfold load, load_index, load_records. rewrite Hp.
    by destruct (fs !! (path +:+ ".index")) as [[]|].
  - intros kds embs Hi Hp. unfold load, load_index, load_records.
    by rewrite Hi, Hp.
  - intros ix Hp Hi. unfold load, load_index, load_records.
    by rewrite Hi, Hp.
Qed.

End StoreProperties.

(** * The Query Engine and the Stats Reporter *)

Section RAGProperties.
Context `{!EmbeddingModel, !Formatting, !ChatApi}.

(** C8: when the retrieval has returned and the completion call then
    raises, [query] raises nothing: it returns the text
    "Error generating response: " followed by the error's message. *)
Theorem C8_completion_failure_returns_text (self : GPTKeywordRAG)
    (user_query : string) (max_keywords : Z) (include_recommendations : bool)
    (keyword_results : list (KeywordData * Z)) (e : exn) :
  search (vector_store self) user_query max_keywords = Ok keyword_results →
  chat_completions_create
    (completion_request user_query keyword_results include_recommendations)
    = Raise e →
  query self user_query max_keywords include_recommendations =
    Ok ("Error generating response: " +:+ exn_str e).
Proof. intros Hsearch Hchat. unfold query. rewrite Hsearch. cbn. by rewrite Hchat. Qed.

(** C9: with no stored record the statistics are the one-entry mapping
    [total_keywords = 0]; no other key is present. *)
Theorem C9_stats_of_empty_store (self : GPTKeywordRAG) :
  keyword_data (vector_store self) = [] →
  get_keyword_stats self = {[ "total_keywords" := StatInt 0 ]} ∧
  dom (get_keyword_stats self) = {[ "total_keywords" ]} ∧
  ∀ key, key ≠ "total_keywords" → get_keyword_stats self !! key = None.
Proof.
  intros Hempty. unfold get_keyword_stats. rewrite Hempty.
  split_and!; [done|by rewrite dom_singleton_L|].
  intros key Hkey. by rewrite lookup_singleton_ne.
Qed.

End RAGProperties.


(** * The theorems at concrete inputs *)

(** One record has been added to [demo_store]; the query "seo" scores
    214 against it. *)
Lemma C2_search_at_most_k_sorted_witness :
  ∃ res, @search demo_model demo_store "seo" 3 = Ok res ∧
    (Z.of_nat (length res) ≤ 3)%Z ∧
    ∀ i j a b, i < j → res !! i = Some a → res !! j = Some b → (b.2 ≤ a.2)%Z.
Proof.
  apply (@C2_search_at_most_k_sorted demo_model demo_store "seo" 3).
  - lia.
  - intros ix Hix. vm_compute in Hix. injection Hix as <-. reflexivity.
Defined.

(** C10: one stored record, [k = 2].  FAISS reports the labels [0] and
    [-1]; the guard [idx < len(self.keyword_data)] lets [-1] through, and
    [self.keyword_data[-1]] is the last record, so the result has two
    entries, the second being that record again with the filler score. *)
Example C10_filler_label_yields_last_record :
  @search demo_model demo_store "seo" 2 =
    Ok [(demo_kd, 214%Z); (demo_kd, NEG_FLT_MAX)].
Proof. vm_compute. reflexivity. Qed.

Lemma C4_save_then_load_same_search_witness :
  @load demo_model new_store "keyword_store"
    (save demo_store "keyword_store" ∅) = (demo_store, Ok ()) ∧
  @search demo_model
    (@load demo_model new_store "keyword_store"
       (save demo_store "keyword_store" ∅)).1 "seo" 5 =
    @search demo_model demo_store "seo" 5.
Proof.
  apply (@C4_save_then_load_same_search demo_model demo_store
           "keyword_store" ∅ "seo" 5).
  split.
  - eexists. vm_compute. reflexivity.
  - vm_compute. discriminate.
Defined.

(** C5 as stated fails: with the index file gone and the records bundle
    still there, [load] on a fresh store reads the bundle, and the store
    is left with a record and no index. *)
Lemma C5_load_reads_the_artifact_that_is_present :
  ¬ (∀ (path : string) (fs : gmap string (@file demo_model)),
       fs !! (path +:+ ".index") = None ∨ fs !! (path +:+ ".pkl") = None →
       @load demo_model new_store path fs = (new_store, Ok ())).
Proof.
  intros Hclaim.
  specialize (Hclaim "keyword_store"
    (delete "keyword_store.index" (save demo_store "keyword_store" ∅))).
  assert (keyword_data
            (@load demo_model new_store "keyword_store"
               (delete "keyword_store.index"
                  (save demo_store "keyword_store" ∅))).1 = [demo_kd])
    as Hloaded by (vm_compute; reflexivity).
  rewrite Hclaim in Hloaded; [discriminate|].
  left. apply lookup_delete_eq.
Qed.

Lemma C5_load_with_missing_artifacts_witness :
  @load demo_model new_store "keyword_store"
    (delete "keyword_store.index" (save demo_store "keyword_store" ∅)) =
    ({| index := index (@new_store demo_model);
        keyword_data := keyword_data demo_store;
        embeddings := embeddings demo_store |}, Ok ()) ∧
  @load demo_model new_store "keyword_store"
    (delete "keyword_store.pkl" (save demo_store "keyword_store" ∅)) =
    ({| index := Some {| faiss_d := 2; faiss_xb := embeddings demo_store |};
        keyword_data := keyword_data (@new_store demo_model);
        embeddings := embeddings (@new_store demo_model) |}, Ok ()) ∧
  @load demo_model demo_store "keyword_store" ∅ = (demo_store, Ok ()).
Proof.
  split_and!.
  - destruct (@C5_load_with_missing_artifacts demo_model new_store
                "keyword_store"
                (delete "keyword_store.index"
                   (save demo_store "keyword_store" ∅)))
      as (_ & _ & _ & Hrecords & _).
    apply Hrecords.
    + vm_compute. reflexivity.
    + vm_compute. reflexivity.
  - destruct (@C5_load_with_missing_artifacts demo_model new_store
                "keyword_store"
                (delete "keyword_store.pkl"
                   (save demo_store "keyword_store" ∅)))
      as (_ & _ & _ & _ & Hindex & _).
    apply Hindex.
    + vm_compute. reflexivity.
    + vm_compute. reflexivity.
  - destruct (@C5_load_with_missing_artifacts demo_model demo_store
                "keyword_store" ∅) as (Hnothing & _).
    apply Hnothing; reflexivity.
Defined.

Lemma C8_completion_failure_returns_text_witness :
  @query demo_model demo_formatting failing_chat (demo_rag demo_store)
    "which keywords are cheap?" 1 true =
    Ok ("Error generating response: " +:+
        exn_str (OtherException "APIConnectionError" "Connection error.")).
Proof.
  eapply (@C8_completion_failure_returns_text demo_model demo_formatting
            failing_chat (demo_rag demo_store)).
  - vm_compute. reflexivity.
  - reflexivity.
Defined.

Lemma C9_stats_of_empty_store_witness :
  @get_keyword_stats demo_model (demo_rag new_store) =
    {[ "total_keywords" := StatInt 0 ]} ∧
  dom (@get_keyword_stats demo_model (demo_rag new_store)) =
    {[ "total_keywords" ]} ∧
  ∀ key, key ≠ "total_keywords" →
    @get_keyword_stats demo_model (demo_rag new_store) !! key = None.
Proof.
  apply (@C9_stats_of_empty_store demo_model (demo_rag new_store)).
  reflexivity.
Defined.

(** The reporter on five records with search volumes 100 to 500: five
    keywords, mean 300, median 300, none above the 10,000 threshold. *)
Example stats_of_five_records :
  let stats :=
    @get_keyword_stats demo_model
      (demo_rag {| index := None;
                   keyword_data := volume_kd <$> [100; 200; 300; 400; 500]%Z;
                   embeddings := [] |}) in
  stats !! "total_keywords" = Some (StatInt 5) ∧
  (∃ x, stats !! "avg_search_volume" = Some (StatFloat x) ∧ (x == 300)%Q) ∧
  (∃ x, stats !! "median_search_volume" = Some (StatFloat x) ∧ (x == 300)%Q) ∧
  stats !! "high_volume_keywords" = Some (StatInt 0) ∧
  stats !! "low_competition_keywords" = Some (StatInt 5).
Proof.
  split_and!; try (vm_compute; reflexivity);
    eexists; (split; [vm_compute; reflexivity|reflexivity]).
Qed.

(** * Further properties of the Metrics Fetcher *)

Lemma remove_char_chars (c : ascii) (s : string) :
  String.list_ascii_of_string (remove_char c s) =
    filter (λ a, a ≠ c) (String.list_ascii_of_string s).
Proof.
  induction s as [|a s IH]; simpl; [done|].
  destruct (Ascii.eqb_spec a c) as [->|Hne].
  - by rewrite filter_cons_False by (by intros ?).
  - rewrite filter_cons_True by done. simpl. by rewrite IH.
Qed.

Lemma filter_keeps_all {A} (P : A → Prop) `{!∀ x, Decision (P x)}
    (l : list A) : Forall P l → filter P l = l.
Proof.
  induction 1 as [|x l Hx _ IH]; [done|].
  by rewrite filter_cons_True, IH.
Qed.

Lemma filter_keeps_none {A} (P : A → Prop) `{!∀ x, Decision (P x)}
    (l : list A) : Forall (λ x, ¬ P x) l → filter P l = [].
Proof.
  induction 1 as [|x l Hx _ IH]; [done|].
  by rewrite filter_cons_False.
Qed.

Lemma string_chars_inj (s1 s2 : string) :
  String.list_ascii_of_string s1 = String.list_ascii_of_string s2 → s1 = s2.
Proof.
  intros Heq. rewrite <-(String.string_of_list_ascii_of_string s1),
    <-(String.string_of_list_ascii_of_string s2). by rewrite Heq.
Qed.

Lemma truthy_str_chars (s : string) :
  truthy_str (Some s) = true ↔ String.list_ascii_of_string s ≠ [].
Proof. by destruct s. Qed.

(** [set_customer_id] stores the id with every ["-"] removed and
    nothing else changed: the characters of the stored id are those of
    the given id other than ["-"], in the same order.  Hence the stored
    id contains no ["-"], an id without dashes is stored as it is, and
    storing the stored id again changes nothing. *)
Theorem set_customer_id_strips_dashes (self : GoogleAdsKeywordExtractor)
    (cid : string) :
  ∃ stored, customer_id (set_customer_id self cid) = Some stored ∧
    String.list_ascii_of_string stored =
      filter (λ a, a ≠ "-"%char) (String.list_ascii_of_string cid) ∧
    ("-"%char ∉ String.list_ascii_of_string stored) ∧
    ("-"%char ∉ String.list_ascii_of_string cid → stored = cid) ∧
    set_customer_id (set_customer_id self cid) stored =
      set_customer_id self cid.
Proof.
  exists (remove_char "-" cid). split_and!; [done| | | |].
  - apply remove_char_chars.
  - rewrite remove_char_chars, list_elem_of_filter. by intros [? _].
  - intros Hno. apply string_chars_inj. rewrite remove_char_chars.
    apply filter_keeps_all, Forall_forall. by intros a Ha ->.
  - unfold set_customer_id. do 2 f_equal. apply string_chars_inj.
    rewrite !remove_char_chars. by rewrite list_filter_filter_l.
Qed.

(** The id of the fixtures: ten digits are left of "123-456-7890". *)
Example set_customer_id_strips_dashes_example :
  customer_id (set_customer_id new_extractor "123-456-7890") =
    Some "1234567890".
Proof. reflexivity. Qed.

(** An id made of dashes only (the empty id included) is stored as the
    empty text, which counts as unset: the next fetch raises [ValueError]
    and sends nothing upstream. *)
Theorem dash_only_customer_id_is_unbound `{!AdsApi}
    (self : GoogleAdsKeywordExtractor) (cid : string)
    (keywords : list string) (location_ids : option (list string))
    (language_id : string) :
  Forall (λ a, a = "-"%char) (String.list_ascii_of_string cid) →
  get_keyword_ideas (set_customer_id self cid) keywords location_ids
    language_id =
    ([], Raise (ValueError "Customer ID must be set before making API calls")).
Proof.
  intros Hdash. unfold get_keyword_ideas.
  assert (remove_char "-" cid = EmptyString) as Hempty.
  { apply string_chars_inj. rewrite remove_char_chars. simpl.
    apply filter_keeps_none. eapply Forall_impl; [exact Hdash|].
    by intros a -> ?. }
  simpl. by rewrite Hempty.
Qed.

Lemma dash_only_customer_id_is_unbound_witness :
  @get_keyword_ideas demo_ads (set_customer_id new_extractor "--") ["seo"]
    None "1000" =
    ([], Raise (ValueError "Customer ID must be set before making API calls")).
Proof.
  apply (@dash_only_customer_id_is_unbound demo_ads new_extractor "--").
  repeat constructor.
Defined.

(** With a non-empty id bound, a fetch sends exactly one request: it
    carries the bound id, the language constant, the seeds unchanged, one
    geo target per location id (none when the location list is absent or
    empty), and the Google Search network. *)
Theorem fetch_sends_one_request `{!AdsApi} (self : GoogleAdsKeywordExtractor)
    (cid : string) (keywords : list string)
    (location_ids : option (list string)) (language_id : string) :
  customer_id self = Some cid → cid ≠ EmptyString →
  ∃ request,
    (get_keyword_ideas self keywords location_ids language_id).1 = [request] ∧
    req_customer_id request = cid ∧
    req_language request = "languageConstants/" +:+ language_id ∧
    req_geo_target_constants request =
      ((λ l, "geoTargetConstants/" +:+ l) <$> default [] location_ids) ∧
    req_keyword_seed request = keywords ∧
    req_keyword_plan_network request = GOOGLE_SEARCH.
Proof.
  intros Hcid Hne. unfold get_keyword_ideas. rewrite Hcid.
  assert (truthy_str (Some cid) = true) as -> by (by destruct cid).
  cbn [negb default].
  exists (build_request cid keywords location_ids language_id).
  split_and!; try done.
  - by destruct (generate_keyword_ideas _).
  - by destruct location_ids as [[|]|].
Qed.

Lemma fetch_sends_one_request_witness :
  ∃ request,
    (@get_keyword_ideas demo_ads demo_extractor ["seo"] (Some []) "1000").1 =
      [request] ∧
    req_customer_id request = "1234567890" ∧
    req_language request = "languageConstants/" +:+ "1000" ∧
    req_geo_target_constants request =
      ((λ l, "geoTargetConstants/" +:+ l) <$> default [] (Some [])) ∧
    req_keyword_seed request = ["seo"] ∧
    req_keyword_plan_network request = GOOGLE_SEARCH.
Proof.
  apply (@fetch_sends_one_request demo_ads demo_extractor "1234567890").
  - reflexivity.
  - discriminate.
Defined.

(** With a non-empty id bound, the fetch raises exactly what the
    upstream call raises; when the upstream call returns, the fetch
    returns one record per idea, in the order of the response, each with
    the idea's text, its competition level by name, and currency USD. *)
Theorem fetch_outcome_follows_upstream `{!AdsApi}
    (self : GoogleAdsKeywordExtractor) (cid : string)
    (keywords : list string) (location_ids : option (list string))
    (language_id : string) :
  customer_id self = Some cid → cid ≠ EmptyString →
  ∃ request,
    (get_keyword_ideas self keywords location_ids language_id).1 = [request] ∧
    match generate_keyword_ideas request with
    | Raise ex =>
        (get_keyword_ideas self keywords location_ids language_id).2 = Raise ex
    | Ok response =>
        ∃ kds,
          (get_keyword_ideas self keywords location_ids language_id).2 = Ok kds ∧
          keyword <$> kds = idea_text <$> response ∧
          competition <$> kds =
            (λ idea, competition_name
                       (idea_competition (keyword_idea_metrics idea)))
              <$> response ∧
          Forall (λ kd, currency_code kd = "USD") kds
    end.
Proof.
  intros Hcid Hne. unfold get_keyword_ideas. rewrite Hcid.
  assert (truthy_str (Some cid) = true) as -> by (by destruct cid).
  cbn [negb default].
  exists (build_request cid keywords location_ids language_id).
  destruct (generate_keyword_ideas _) as [response|ex]; [|done].
  split; [done|]. eexists. split; [done|]. cbn [snd].
  split_and!.
  - apply list_eq. intros i.
    rewrite !list_lookup_fmap, list_lookup_imap. by destruct (response !! i).
  - apply list_eq. intros i.
    rewrite !list_lookup_fmap, list_lookup_imap. by destruct (response !! i).
  - apply Forall_forall. intros kd Hkd.
    by apply elem_of_lookup_imap_1 in Hkd as (i & idea & -> & _).
Qed.

Lemma fetch_outcome_follows_upstream_witness :
  ∃ request,
    (@get_keyword_ideas demo_ads demo_extractor ["seo"] None "1000").1 =
      [request] ∧
    match @generate_keyword_ideas demo_ads request with
    | Raise ex =>
        (@get_keyword_ideas demo_ads demo_extractor ["seo"] None "1000").2 =
          Raise ex
    | Ok response =>
        ∃ kds,
          (@get_keyword_ideas demo_ads demo_extractor ["seo"] None "1000").2 =
            Ok kds ∧
          keyword <$> kds = idea_text <$> response ∧
          competition <$> kds =
            (λ idea, competition_name
                       (idea_competition (keyword_idea_metrics idea)))
              <$> response ∧
          Forall (λ kd, currency_code kd = "USD") kds
    end.
Proof.
  apply (@fetch_outcome_follows_upstream demo_ads demo_extractor "1234567890").
  - reflexivity.
  - discriminate.
Defined.

Lemma micros_to_units_nonneg (x : Z) :
  (0 ≤ x)%Z → (0 <= micros_to_units (Some x))%Q.
Proof.
  intros Hx. unfold micros_to_units, truthy_int.
  destruct (Z.eqb_spec x 0); simpl; [done|].
  unfold Qle, Qdiv; simpl. lia.
Qed.

Lemma micros_to_units_mono (x y : Z) :
  (0 ≤ x ≤ y)%Z → (micros_to_units (Some x) <= micros_to_units (Some y))%Q.
Proof.
  intros Hxy. unfold micros_to_units, truthy_int.
  destruct (Z.eqb_spec x 0), (Z.eqb_spec y 0); simpl;
    unfold Qle, Qdiv; simpl; lia.
Qed.

(** The conversion keeps bids in order: when the API supplies both bids,
    non-negative and with the low one not above the high one, the record
    has [0 <= cpc_low <= cpc_high]; the top-of-page fields repeat the two
    amounts. *)
Theorem converted_bids_stay_ordered `{!AdsApi} (i : nat) (idea : KeywordIdea)
    (lo hi : Z) :
  low_top_of_page_bid_micros (keyword_idea_metrics idea) = Some lo →
  high_top_of_page_bid_micros (keyword_idea_metrics idea) = Some hi →
  (0 ≤ lo ≤ hi)%Z →
  let kd := keyword_data_of_idea i idea in
  (0 <= cpc_low kd)%Q ∧ (cpc_low kd <= cpc_high kd)%Q ∧
  top_of_page_cpc_low kd = cpc_low kd ∧
  top_of_page_cpc_high kd = cpc_high kd.
Proof.
  intros Hlo Hhi Hle. unfold keyword_data_of_idea. cbn. rewrite Hlo, Hhi.
  split_and!; [|by apply micros_to_units_mono|done..].
  apply micros_to_units_nonneg. lia.
Qed.

Lemma converted_bids_stay_ordered_witness :
  let kd :=
    @keyword_data_of_idea demo_ads 0
      {| idea_text := "ppc";
         keyword_idea_metrics :=
           {| avg_monthly_searches := Some 900%Z;
              idea_competition := HIGH;
              high_top_of_page_bid_micros := Some 2500000%Z;
              low_top_of_page_bid_micros := Some 400000%Z |} |} in
  (0 <= cpc_low kd)%Q ∧ (cpc_low kd <= cpc_high kd)%Q ∧
  top_of_page_cpc_low kd = cpc_low kd ∧
  top_of_page_cpc_high kd = cpc_high kd.
Proof.
  apply (@converted_bids_stay_ordered demo_ads 0 _ 400000 2500000).
  - reflexivity.
  - reflexivity.
  - lia.
Defined.

(** * Further properties of the Embedding Index *)

Section StoreExtras.
Context `{!EmbeddingModel, !Formatting}.

(** The two ways a call of [add_keywords] can end: it raises and the
    store is as before, or it appends the whole batch. *)
Lemma add_keywords_cases (self : KeywordVectorStore)
    (batch : list KeywordData) :
  (∃ e, add_keywords self batch = (self, Raise e) ∧
        (batch = [] ∨ ∃ ix, index self = Some ix ∧ faiss_d ix ≠ model_dim)) ∨
  (batch ≠ [] ∧
   ∃ d, add_keywords self batch =
     ({| index := Some {| faiss_d := d;
                          faiss_xb := stored_vectors self ++
                                      (embed_record <$> batch) |};
         keyword_data := keyword_data self ++ batch;
         embeddings := embeddings self ++ (embed_record <$> batch) |}, Ok ())).
Proof.
  destruct batch as [|kd batch].
  { left. eexists. split; [apply add_keywords_empty|by left]. }
  assert (kd :: batch ≠ []) as Hne by done.
  remember (kd :: batch) as b eqn:Hb. clear Hb.
  assert (embed_record <$> b ≠ []) as Hne' by (by destruct b).
  destruct self as [[ix|] kds embs].
  - destruct (decide (model_dim = faiss_d ix)) as [Hd|Hd].
    + right. split; [done|]. exists model_dim.
      rewrite add_keywords_nonempty; [done| |done].
      intros ix' [= <-]. by symmetry.
    + left. exists AssertionError. split; [|right; eauto].
      unfold add_keywords. rewrite normalize_encode_batch by done. cbn.
      unfold index_add. rewrite shape1_nonempty by done. cbn.
      by rewrite decide_False.
  - right. split; [done|]. exists model_dim.
    rewrite add_keywords_nonempty; [done| |done]. by intros ix' [=].
Qed.

(** [add_keywords] is all or nothing: when it raises, the store (records,
    embeddings and index) is exactly as before the call. *)
Theorem add_keywords_failure_changes_nothing (self : KeywordVectorStore)
    (batch : list KeywordData) (e : exn) :
  (add_keywords self batch).2 = Raise e → (add_keywords self batch).1 = self.
Proof.
  destruct (add_keywords_cases self batch) as [(e' & -> & _)|(_ & d & ->)];
    [done|]. by intros [=].
Qed.

(** When [add_keywords] returns, it has appended the batch, in order and
    at the end, to the record list, to the kept embeddings and to the
    rows of the index, one vector per record. *)
Theorem add_keywords_success_appends_batch (self : KeywordVectorStore)
    (batch : list KeywordData) :
  (add_keywords self batch).2 = Ok () →
  let self' := (add_keywords self batch).1 in
  keyword_data self' = (keyword_data self ++ batch)%list ∧
  embeddings self' = (embeddings self ++ (embed_record <$> batch))%list ∧
  stored_vectors self' =
    (stored_vectors self ++ (embed_record <$> batch))%list ∧
  batch ≠ [].
Proof.
  destruct (add_keywords_cases self batch) as [(e' & -> & _)|(Hne & d & ->)];
    [by intros [=]|]. done.
Qed.

(** A batch added to an index of another dimension (an index file
    written with a different embedding model) raises [AssertionError]
    and adds nothing. *)
Theorem add_keywords_dimension_mismatch (self : KeywordVectorStore)
    (batch : list KeywordData) (ix : IndexFlatIP) :
  batch ≠ [] → index self = Some ix → faiss_d ix ≠ model_dim →
  add_keywords self batch = (self, Raise AssertionError).
Proof.
  intros Hne Hix Hd.
  assert (embed_record <$> batch ≠ []) as Hne' by (by destruct batch).
  unfold add_keywords. rewrite normalize_encode_batch, Hix by done. cbn.
  unfold index_add. rewrite shape1_nonempty by done. cbn.
  rewrite decide_False by (by intros ?).
  destruct self; simpl in *; by subst.
Qed.

(** Records are never removed or reordered: whatever the store and the
    batches, the records before a series of calls are a prefix of the
    records after it, and likewise the embeddings and the index rows. *)
Theorem add_keywords_only_grows (batches : list (list KeywordData))
    (self : KeywordVectorStore) :
  let self' := foldl (λ st batch, (add_keywords st batch).1) self batches in
  keyword_data self `prefix_of` keyword_data self' ∧
  embeddings self `prefix_of` embeddings self' ∧
  stored_vectors self `prefix_of` stored_vectors self'.
Proof.
  revert self. induction batches as [|batch rest IH]; intros self; simpl.
  { done. }
  destruct (IH (add_keywords self batch).1) as (Hk & He & Hx).
  destruct (add_keywords_cases self batch) as [(e' & Heq & _)|(_ & d & Heq)];
    rewrite Heq in Hk, He, Hx; rewrite Heq; simpl in *; [done|].
  unfold stored_vectors at 1 in Hx. simpl in Hx.
  split_and!; (etrans; [apply prefix_app_r; reflexivity|done]).
Qed.

End StoreExtras.

Lemma add_keywords_failure_changes_nothing_witness :
  (@add_keywords demo_model demo_formatting demo_store []).1 = demo_store.
Proof.
  apply (@add_keywords_failure_changes_nothing demo_model demo_formatting
           demo_store [] (IndexError "tuple index out of range")).
  reflexivity.
Defined.

Lemma add_keywords_success_appends_batch_witness :
  let self' :=
    (@add_keywords demo_model demo_formatting demo_store [volume_kd 40]).1 in
  keyword_data self' = (keyword_data demo_store ++ [volume_kd 40])%list ∧
  embeddings self' =
    (embeddings demo_store ++
     (@embed_record demo_model demo_formatting <$> [volume_kd 40]))%list ∧
  stored_vectors self' =
    (stored_vectors demo_store ++
     (@embed_record demo_model demo_formatting <$> [volume_kd 40]))%list ∧
  [volume_kd 40] ≠ [].
Proof.
  apply (@add_keywords_success_appends_batch demo_model demo_formatting
           demo_store [volume_kd 40]).
  reflexivity.
Defined.

(** An index file written with a three-dimensional model, loaded into a
    store that runs the two-dimensional [demo_model]. *)
Lemma add_keywords_dimension_mismatch_witness :
  @add_keywords demo_model demo_formatting
    {| index := Some {| faiss_d := 3; faiss_xb := [] |};
       keyword_data := []; embeddings := [] |} [demo_kd] =
    ({| index := Some {| faiss_d := 3; faiss_xb := [] |};
        keyword_data := []; embeddings := [] |}, Raise AssertionError).
Proof.
  apply (@add_keywords_dimension_mismatch demo_model demo_formatting _
           [demo_kd] {| faiss_d := 3; faiss_xb := [] |}).
  - discriminate.
  - reflexivity.
  - vm_compute. lia.
Defined.

Section SearchExtras.
Context `{!EmbeddingModel, !Formatting}.

Local Existing Instance score_ge_total.
Local Existing Instance score_ge_trans.

Lemma py_getitem_nonneg {A} (l : list A) (i : Z) (x : A) :
  (0 ≤ i)%Z → py_getitem l i = Ok x → l !! Z.to_nat i = Some x.
Proof.
  intros Hi. unfold py_getitem.
  destruct (Z.ltb_spec i 0); [lia|]. destruct (Z.ltb_spec i 0); [lia|].
  destruct (l !! Z.to_nat i); [|done]. by intros [= ->].
Qed.

Lemma py_getitem_minus_one {A} (l : list A) (x : A) :
  py_getitem l (-1) = Ok x → last l = Some x.
Proof.
  unfold py_getitem. cbn [Z.ltb Z.compare].
  destruct (Z.ltb_spec (Z.of_nat (length l) + -1) 0); [done|].
  destruct (l !! _) as [y|] eqn:Hy; [|done]. intros [= ->].
  rewrite last_lookup. rewrite <-Hy. f_equal. lia.
Qed.

Lemma py_getitem_elem {A} (l : list A) (i : Z) (x : A) :
  py_getitem l i = Ok x → x ∈ l.
Proof.
  unfold py_getitem. destruct (_ <? 0)%Z; [done|].
  destruct (l !! _) as [y|] eqn:Hy; [|done]. intros [= ->].
  by eapply list_elem_of_lookup_2.
Qed.

(** Every entry collected by the loop comes from a hit whose label is
    below the record count, and pairs the record at that label with the
    hit's score. *)
Lemma collect_results_elem (kds : list KeywordData) (hits : list (Z * Z))
    (res : list (KeywordData * Z)) :
  collect_results kds hits = Ok res →
  ∀ r, r ∈ res →
    ∃ c, c ∈ hits ∧ (c.2 < Z.of_nat (length kds))%Z ∧
         py_getitem kds c.2 = Ok r.1 ∧ r.2 = c.1.
Proof.
  revert res. induction hits as [|[score idx] hits IH]; intros res; simpl.
  { intros [= <-] r Hr. by apply elem_of_nil in Hr. }
  destruct (Z.ltb_spec idx (Z.of_nat (length kds))) as [Hlt|Hge].
  - destruct (py_getitem kds idx) as [kd|] eqn:Hkd; [|done]. cbn.
    destruct (collect_results kds hits) as [res'|]; [|done]. cbn.
    intros [= <-] r Hr. apply elem_of_cons in Hr as [->|Hr].
    + exists (score, idx). split_and!; [left|done..].
    + destruct (IH res' eq_refl r Hr) as (c & ? & ?). exists c.
      split; [by right|done].
  - intros Hres r Hr. destruct (IH res Hres r Hr) as (c & ? & ?).
    exists c. split; [by right|done].
Qed.

(** Conversely, every hit whose label is below the record count is
    collected. *)
Lemma collect_results_complete (kds : list KeywordData) (hits : list (Z * Z))
    (res : list (KeywordData * Z)) (c : Z * Z) :
  collect_results kds hits = Ok res →
  c ∈ hits → (c.2 < Z.of_nat (length kds))%Z →
  ∃ kd, py_getitem kds c.2 = Ok kd ∧ (kd, c.1) ∈ res.
Proof.
  revert res. induction hits as [|[score idx] hits IH]; intros res; simpl.
  { intros _ Hc. by apply elem_of_nil in Hc. }
  intros Hres Hc Hlt.
  destruct (Z.ltb_spec idx (Z.of_nat (length kds))) as [Hlt'|Hge].
  - destruct (py_getitem kds idx) as [kd|] eqn:Hkd; [|done]. cbn in Hres.
    destruct (collect_results kds hits) as [res'|]; [|done]. cbn in Hres.
    injection Hres as <-. apply elem_of_cons in Hc as [->|Hc].
    + exists kd. split; [done|left].
    + destruct (IH res' eq_refl Hc Hlt) as (kd' & ? & ?).
      exists kd'. split; [done|by right].
  - apply elem_of_cons in Hc as [->|Hc]; [simpl in Hlt; lia|].
    by apply IH.
Qed.

(** What a search that returned went through. *)
Lemma search_inversion (self : KeywordVectorStore) (query : string) (k : Z)
    (res : list (KeywordData * Z)) :
  search self query k = Ok res →
  res = [] ∨
  ∃ ix, index self = Some ix ∧ model_dim = faiss_d ix ∧ (0 < k)%Z ∧
    collect_results (keyword_data self)
      (knn_inner_product (normalize_L2 (model_encode1 query)) (faiss_xb ix)
         (Z.to_nat k)) = Ok res.
Proof.
  unfold search. destruct (index self) as [ix|]; [|intros [= <-]; by left].
  case_decide; [intros [= <-]; by left|].
  unfold index_search. case_decide; [|done].
  destruct (Z.ltb_spec 0 k); [|done]. cbn. intros Hres. right. eauto.
Qed.

Lemma knn_inner_product_unfold (q : vec) (xb : list vec) (k : nat) :
  knn_inner_product q xb k =
    (take k (ranked_hits q xb) ++
     replicate (k - length (ranked_hits q xb)) (NEG_FLT_MAX, (-1)%Z))%list.
Proof. reflexivity. Qed.

Lemma knn_inner_product_elem (q : vec) (xb : list vec) (k : nat) (c : Z * Z) :
  c ∈ knn_inner_product q xb k →
  ((NEG_FLT_MAX < c.1)%Z ∧
   ∃ i x, xb !! i = Some x ∧ c = (inner_product q x, Z.of_nat i)) ∨
  c = (NEG_FLT_MAX, (-1)%Z).
Proof.
  rewrite knn_inner_product_unfold, elem_of_app. intros [Hc|Hc].
  - left. by apply (subseteq_take k), ranked_hits_elem in Hc.
  - right. by apply elem_of_replicate_inv in Hc.
Qed.

(** The k-nearest search leaves no better row out: each stored row is
    among the hits, or scores no higher than any hit. *)
Lemma knn_inner_product_covers (q : vec) (xb : list vec) (k i : nat) (x : vec) :
  xb !! i = Some x →
  (inner_product q x, Z.of_nat i) ∈ knn_inner_product q xb k ∨
  ∀ c, c ∈ knn_inner_product q xb k → (inner_product q x ≤ c.1)%Z.
Proof.
  intros Hx. set (c0 := (inner_product q x, Z.of_nat i)).
  destruct (decide (NEG_FLT_MAX < inner_product q x)%Z) as [Hgt|Hle].
  2:{ right. intros c Hc.
      apply knn_inner_product_elem in Hc as [[? _]| ->]; simpl; lia. }
  assert (c0 ∈ ranked_hits q xb) as Hc0.
  { unfold ranked_hits. rewrite merge_sort_Permutation, list_elem_of_filter.
    split; [done|].
    by apply (elem_of_lookup_imap_2
                (λ j y, (inner_product q y, Z.of_nat j)) xb x i). }
  rewrite <-(take_drop k (ranked_hits q xb)), elem_of_app in Hc0.
  rewrite knn_inner_product_unfold.
  destruct Hc0 as [Hin|Hin]; [left; apply elem_of_app; by left|].
  right. intros c Hc.
  assert (k < length (ranked_hits q xb)) as Hlen.
  { destruct (decide (k < length (ranked_hits q xb))); [done|].
    rewrite drop_ge in Hin by lia. by apply elem_of_nil in Hin. }
  replace (k - length (ranked_hits q xb)) with 0 in Hc by lia.
  simpl in Hc. rewrite app_nil_r in Hc.
  assert (StronglySorted score_ge (ranked_hits q xb)) as Hs
    by (apply StronglySorted_merge_sort; apply _).
  rewrite <-(take_drop k (ranked_hits q xb)) in Hs.
  apply (StronglySorted_app_1_elem_of _ _ _ c c0 Hs Hc Hin).
Qed.

(** Every record a search returns is a stored record, whatever the state
    of the store. *)
Theorem search_results_are_stored_records (self : KeywordVectorStore)
    (query : string) (k : Z) (res : list (KeywordData * Z)) :
  search self query k = Ok res →
  ∀ kd score, (kd, score) ∈ res → kd ∈ keyword_data self.
Proof.
  intros Hsearch kd score Hin.
  apply search_inversion in Hsearch as [->|(ix & _ & _ & _ & Hres)].
  { by apply elem_of_nil in Hin. }
  destruct (collect_results_elem _ _ _ Hres _ Hin) as (c & _ & _ & Hget & _).
  by apply py_getitem_elem in Hget.
Qed.

(** On a store that keeps records and rows paired, every returned pair
    is a record with its own similarity to the query, or else a filler
    slot: the last record with the score [-FLT_MAX]. *)
Theorem search_scores_belong_to_records (self : KeywordVectorStore)
    (query : string) (k : Z) (res : list (KeywordData * Z)) :
  store_inv self → search self query k = Ok res →
  ∀ kd score, (kd, score) ∈ res →
    score = inner_product (normalize_L2 (model_encode1 query))
              (embed_record kd) ∨
    (score = NEG_FLT_MAX ∧ last (keyword_data self) = Some kd).
Proof.
  intros (Hxb & _ & _) Hsearch kd score Hin.
  apply search_inversion in Hsearch as [->|(ix & Hix & _ & _ & Hres)].
  { by apply elem_of_nil in Hin. }
  unfold stored_vectors in Hxb. rewrite Hix in Hxb.
  destruct (collect_results_elem _ _ _ Hres _ Hin) as (c & Hc & _ & Hget & Hs).
  simpl in Hget, Hs. subst score.
  apply knn_inner_product_elem in Hc as [[_ (i & x & Hx & ->)]| ->]; simpl in *.
  - left. apply py_getitem_nonneg in Hget; [|lia].
    rewrite Nat2Z.id in Hget.
    rewrite Hxb, list_lookup_fmap, Hget in Hx. by injection Hx as <-.
  - right. split; [done|]. by apply py_getitem_minus_one.
Qed.

(** A search leaves no better record out: on a paired store, each stored
    record is returned with its score, or scores no higher than anything
    returned. *)
Theorem search_keeps_the_best (self : KeywordVectorStore)
    (query : string) (k : Z) (res : list (KeywordData * Z)) :
  store_inv self → search self query k = Ok res →
  ∀ kd, kd ∈ keyword_data self →
    let score := inner_product (normalize_L2 (model_encode1 query))
                   (embed_record kd) in
    (kd, score) ∈ res ∨ ∀ r, r ∈ res → (score ≤ r.2)%Z.
Proof.
  intros (Hxb & _ & _) Hsearch kd Hkd score.
  unfold stored_vectors in Hxb.
  apply search_inversion in Hsearch as [->|(ix & Hix & _ & _ & Hres)].
  { right. intros r Hr. by apply elem_of_nil in Hr. }
  rewrite Hix in Hxb.
  apply list_elem_of_lookup in Hkd as [i Hi].
  assert (faiss_xb ix !! i = Some (embed_record kd)) as Hx
    by (by rewrite Hxb, list_lookup_fmap, Hi).
  destruct (knn_inner_product_covers (normalize_L2 (model_encode1 query))
              _ (Z.to_nat k) i _ Hx) as [Hin|Hall].
  - left. apply lookup_lt_Some in Hi as Hlt.
    destruct (collect_results_complete _ _ _ _ Hres Hin) as (kd' & Hget & Hr).
    { simpl. lia. }
    simpl in Hget, Hr. apply py_getitem_nonneg in Hget; [|lia].
    rewrite Nat2Z.id, Hi in Hget. by injection Hget as <-.
  - right. intros r Hr.
    destruct (collect_results_elem _ _ _ Hres _ Hr) as (c & Hc & _ & _ & ->).
    by apply Hall.
Qed.

(** The best match comes first: on a paired, non-empty store and for a
    positive [k], the result is not empty and no stored record is more
    similar to the query than the score of its first entry. *)
Theorem search_best_match_first (self : KeywordVectorStore)
    (query : string) (k : Z) :
  store_inv self → keyword_data self ≠ [] → (0 < k)%Z →
  ∃ kd0 score0 rest,
    search self query k = Ok ((kd0, score0) :: rest) ∧
    ∀ kd, kd ∈ keyword_data self →
      (inner_product (normalize_L2 (model_encode1 query)) (embed_record kd)
       ≤ score0)%Z.
Proof.
  intros (Hxb & _ & Hdim) Hne Hk. unfold stored_vectors in Hxb.
  unfold search. destruct (index self) as [ix|] eqn:Hix.
  2:{ destruct (keyword_data self); [done|]. by simplify_eq/=. }
  rewrite decide_False by (by destruct (keyword_data self)).
  unfold index_search. rewrite decide_True by (symmetry; auto).
  destruct (Z.ltb_spec 0 k); [|lia]. cbn.
  set (q := normalize_L2 (model_encode1 query)).
  set (hits := knn_inner_product q (faiss_xb ix) (Z.to_nat k)).
  assert (length hits = Z.to_nat k) as Hlen
    by apply knn_inner_product_length.
  assert (StronglySorted score_ge hits) as Hsorted
    by apply knn_inner_product_sorted.
  assert (Forall (λ c, c.2 = (-1)%Z ∨
                       (0 ≤ c.2 < Z.of_nat (length (faiss_xb ix)))%Z) hits)
    as Hlabels by apply knn_inner_product_labels.
  assert (∀ i x, faiss_xb ix !! i = Some x →
            (inner_product q x, Z.of_nat i) ∈ hits ∨
            ∀ c, c ∈ hits → (inner_product q x ≤ c.1)%Z) as Hcover
    by (intros i x; apply knn_inner_product_covers).
  clearbody hits.
  destruct hits as [|[score0 idx0] hits]; [simpl in Hlen; lia|].
  apply StronglySorted_cons in Hsorted as [Hfirst _].
  apply Forall_cons in Hlabels as [Hidx0 Hlabels]. simpl in Hidx0.
  rewrite Hxb, length_fmap in Hidx0, Hlabels.
  destruct (collect_results_keeps_all (keyword_data self) hits)
    as (rest & Hrest & _); [done| |].
  { eapply Forall_impl; [exact Hlabels|]. simpl. lia. }
  simpl. destruct (Z.ltb_spec idx0 (Z.of_nat (length (keyword_data self))));
    [|lia].
  destruct (py_getitem_in_range (keyword_data self) idx0) as [kd0 ->].
  { destruct (keyword_data self); [done|]. simpl in *. lia. }
  rewrite Hrest. cbn. exists kd0, score0, rest. split; [done|].
  intros kd Hkd. apply list_elem_of_lookup in Hkd as [i Hi].
  destruct (Hcover i (embed_record kd)) as [Hin|Hall].
  - by rewrite Hxb, list_lookup_fmap, Hi.
  - apply elem_of_cons in Hin as [[= -> _]|Hin]; [done|].
    rewrite Forall_forall in Hfirst. apply (Hfirst _ Hin).
  - apply (Hall (score0, idx0)). left.
Qed.

(** Without an index or without records a search returns the empty list
    before looking at [k]; otherwise a [k] that is not positive raises
    [AssertionError]. *)
Theorem search_edge_cases (self : KeywordVectorStore) (query : string) (k : Z) :
  (index self = None ∨ keyword_data self = [] → search self query k = Ok []) ∧
  (is_Some (index self) → keyword_data self ≠ [] → (k ≤ 0)%Z →
   search self query k = Raise AssertionError).
Proof.
  unfold search. split.
  - intros [-> | Hempty]; [done|]. destruct (index self); [|done].
    by rewrite decide_True by (by rewrite Hempty).
  - intros [ix ->] Hne Hk.
    rewrite decide_False by (by destruct (keyword_data self)).
    unfold index_search. case_decide; [|done].
    by destruct (Z.ltb_spec 0 k); [lia|].
Qed.

(** When no label reaches the record count, the loop turns the hits
    into entries one for one. *)
Lemma collect_results_pairs (kds : list KeywordData) (hits : list (Z * Z))
    (res : list (KeywordData * Z)) :
  Forall (λ c, (c.2 < Z.of_nat (length kds))%Z) hits →
  collect_results kds hits = Ok res →
  Forall2 (λ c r, py_getitem kds c.2 = Ok r.1 ∧ r.2 = c.1) hits res.
Proof.
  intros Hall. revert res.
  induction Hall as [|[score idx] hits Hidx _ IH]; intros res; simpl.
  { intros [= <-]. constructor. }
  simpl in Hidx. destruct (Z.ltb_spec idx (Z.of_nat (length kds))); [|lia].
  destruct (py_getitem kds idx) as [kd|] eqn:Hkd; [|done]. cbn.
  destruct (collect_results kds hits) as [res'|]; [|done]. cbn.
  intros [= <-]. constructor; [done|by apply IH].
Qed.

Lemma ranked_hits_length (q : vec) (xb : list vec) :
  (length (ranked_hits q xb) ≤ length xb)%nat.
Proof.
  unfold ranked_hits. rewrite merge_sort_Permutation.
  etrans; [apply length_filter|]. unfold scored_rows. by rewrite length_imap.
Qed.

(** Every one of the [k] result slots is filled.  On a paired, non-empty
    store a search for a positive [k] returns exactly [k] entries, and
    every entry at a position from the record count on is the last
    record with the score [-FLT_MAX]: asking for more records than are
    stored repeats the last one. *)
Theorem search_fills_every_slot (self : KeywordVectorStore)
    (query : string) (k : Z) :
  (0 < k)%Z → store_inv self → keyword_data self ≠ [] →
  ∃ res, search self query k = Ok res ∧
    length res = Z.to_nat k ∧
    ∀ j r, (length (keyword_data self) ≤ j)%nat → res !! j = Some r →
      r.2 = NEG_FLT_MAX ∧ last (keyword_data self) = Some r.1.
Proof.
  intros Hk (Hxb & _ & Hdim) Hne. unfold stored_vectors in Hxb.
  unfold search. destruct (index self) as [ix|] eqn:Hix.
  2:{ destruct (keyword_data self); [done|]. by simplify_eq/=. }
  rewrite decide_False by (by destruct (keyword_data self)).
  unfold index_search. rewrite decide_True by (symmetry; auto).
  destruct (Z.ltb_spec 0 k); [|lia]. cbn.
  set (q := normalize_L2 (model_encode1 query)).
  assert (Forall (λ c, (-1 ≤ c.2 < Z.of_nat (length (keyword_data self)))%Z)
            (knn_inner_product q (faiss_xb ix) (Z.to_nat k))) as Hlabels.
  { eapply Forall_impl; [apply knn_inner_product_labels|]. simpl.
    intros c. rewrite Hxb, length_fmap. lia. }
  destruct (collect_results_keeps_all (keyword_data self)
              (knn_inner_product q (faiss_xb ix) (Z.to_nat k)))
    as (res & Hres & Hlen); [done..|].
  rewrite Hres. exists res. split; [done|].
  split; [by rewrite Hlen, knn_inner_product_length|].
  intros j r Hj Hr.
  apply collect_results_pairs in Hres;
    [|eapply Forall_impl; [exact Hlabels|]; simpl; lia].
  destruct (Forall2_lookup_r _ _ _ _ _ Hres Hr) as (c & Hc & Hget & Hscore).
  rewrite knn_inner_product_unfold in Hc.
  pose proof (ranked_hits_length q (faiss_xb ix)) as Hranked.
  assert (length (faiss_xb ix) = length (keyword_data self)) as Hrows
    by (by rewrite Hxb, length_fmap).
  rewrite lookup_app_r in Hc by (rewrite length_take; lia).
  apply lookup_replicate in Hc as [-> _]. simpl in *.
  split; [done|]. by apply py_getitem_minus_one.
Qed.

End SearchExtras.

Lemma demo_store_inv : @store_inv demo_model demo_formatting demo_store.
Proof.
  split_and!; [reflexivity..|].
  intros ix Hix. vm_compute in Hix. by injection Hix as <-.
Qed.

Lemma search_results_are_stored_records_witness :
  demo_kd ∈ keyword_data demo_store.
Proof.
  apply (@search_results_are_stored_records demo_model demo_store "seo" 2
           [(demo_kd, 214%Z); (demo_kd, NEG_FLT_MAX)] eq_refl demo_kd 214%Z).
  left.
Defined.

Lemma search_scores_belong_to_records_witness :
  214%Z = @inner_product demo_model
            (normalize_L2 (model_encode1 "seo"))
            (@embed_record demo_model demo_formatting demo_kd) ∨
  (214%Z = NEG_FLT_MAX ∧ last (keyword_data demo_store) = Some demo_kd).
Proof.
  apply (@search_scores_belong_to_records demo_model demo_formatting
           demo_store "seo" 2 [(demo_kd, 214%Z); (demo_kd, NEG_FLT_MAX)]).
  - apply demo_store_inv.
  - vm_compute. reflexivity.
  - left.
Defined.

Lemma search_keeps_the_best_witness :
  let score := @inner_product demo_model
                 (normalize_L2 (model_encode1 "seo"))
                 (@embed_record demo_model demo_formatting demo_kd) in
  (demo_kd, score) ∈ [(demo_kd, 214%Z)] ∨
  ∀ r, r ∈ [(demo_kd, 214%Z)] → (score ≤ r.2)%Z.
Proof.
  apply (@search_keeps_the_best demo_model demo_formatting demo_store "seo" 1).
  - apply demo_store_inv.
  - vm_compute. reflexivity.
  - change (demo_kd ∈ [demo_kd]). left.
Defined.

Lemma search_best_match_first_witness :
  ∃ kd0 score0 rest,
    @search demo_model demo_store "seo" 2 = Ok ((kd0, score0) :: rest) ∧
    ∀ kd, kd ∈ keyword_data demo_store →
      (@inner_product demo_model (normalize_L2 (model_encode1 "seo"))
         (@embed_record demo_model demo_formatting kd) ≤ score0)%Z.
Proof.
  apply (@search_best_match_first demo_model demo_formatting demo_store "seo" 2).
  - apply demo_store_inv.
  - vm_compute. discriminate.
  - lia.
Defined.

Lemma search_edge_cases_witness :
  @search demo_model demo_store "seo" 0 = Raise AssertionError.
Proof.
  apply (@search_edge_cases demo_model demo_store "seo" 0).
  - eexists. vm_compute. reflexivity.
  - vm_compute. discriminate.
  - lia.
Defined.

Lemma search_fills_every_slot_witness :
  ∃ res, @search demo_model demo_store "seo" 4 = Ok res ∧
    length res = Z.to_nat 4 ∧
    ∀ j r, (length (keyword_data demo_store) ≤ j)%nat → res !! j = Some r →
      r.2 = NEG_FLT_MAX ∧ last (keyword_data demo_store) = Some r.1.
Proof.
  apply (@search_fills_every_slot demo_model demo_formatting demo_store "seo" 4).
  - lia.
  - apply demo_store_inv.
  - vm_compute. discriminate.
Defined.

(** * Further properties of the Persistence Layer *)

Lemma string_app_chars (s1 s2 : string) :
  String.list_ascii_of_string (s1 +:+ s2) =
    (String.list_ascii_of_string s1 ++ String.list_ascii_of_string s2)%list.
Proof. induction s1 as [|a s1 IH]; simpl; [done|]. by rewrite IH. Qed.

Lemma string_app_inj_r (s1 s2 t : string) : s1 +:+ t = s2 +:+ t → s1 = s2.
Proof.
  intros Heq. apply string_chars_inj.
  apply (f_equal String.list_ascii_of_string) in Heq.
  rewrite !string_app_chars in Heq. by apply app_inv_tail in Heq.
Qed.

Lemma index_pkl_stems_differ (path1 path2 : string) :
  path1 +:+ ".index" ≠ path2 +:+ ".pkl".
Proof.
  intros Heq. apply (f_equal String.list_ascii_of_string) in Heq.
  rewrite !string_app_chars in Heq.
  change (String.list_ascii_of_string ".index") with
    (String.list_ascii_of_string ".i" ++ String.list_ascii_of_string "ndex")%list
    in Heq.
  rewrite (assoc_L (++)) in Heq.
  by apply app_inj_2 in Heq as [_ ?].
Qed.

Section PersistenceExtras.
Context `{!EmbeddingModel}.

Lemma save_lookup_other (self : KeywordVectorStore) (path p : string)
    (fs : gmap string file) :
  p ≠ path +:+ ".index" → p ≠ path +:+ ".pkl" →
  save self path fs !! p = fs !! p.
Proof.
  intros Hi Hp. unfold save. rewrite lookup_insert_ne by done.
  destruct (index self); [by rewrite lookup_insert_ne|done].
Qed.

Lemma load_reads_two_files (self : KeywordVectorStore) (path : string)
    (fs1 fs2 : gmap string file) :
  fs1 !! (path +:+ ".index") = fs2 !! (path +:+ ".index") →
  fs1 !! (path +:+ ".pkl") = fs2 !! (path +:+ ".pkl") →
  load self path fs1 = load self path fs2.
Proof. intros Hi Hp. unfold load, load_index, load_records. by rewrite Hi, Hp. Qed.

(** [save] writes the records bundle, writes the index file when the
    store has an index, and touches no other path; without an index the
    index file already at the path stays as it is. *)
Theorem save_writes_only_its_two_files (self : KeywordVectorStore)
    (path : string) (fs : gmap string file) :
  (∀ p, p ≠ path +:+ ".index" → p ≠ path +:+ ".pkl" →
        save self path fs !! p = fs !! p) ∧
  save self path fs !! (path +:+ ".pkl") =
    Some (PickleFile (keyword_data self) (embeddings self)) ∧
  save self path fs !! (path +:+ ".index") =
    match index self with
    | Some ix => Some (FaissIndexFile ix)
    | None => fs !! (path +:+ ".index")
    end.
Proof.
  split_and!.
  - intros p. apply save_lookup_other.
  - unfold save. by rewrite lookup_insert_eq.
  - unfold save. rewrite lookup_insert_ne
      by (apply not_eq_sym, index_pkl_paths_differ).
    destruct (index self); [by rewrite lookup_insert_eq|done].
Qed.

(** Stores saved under different path stems do not disturb each other:
    saving a second store elsewhere leaves the first one loadable as it
    was saved. *)
Theorem stores_under_different_stems_do_not_interfere
    (s1 s2 other : KeywordVectorStore) (path1 path2 : string)
    (fs : gmap string file) :
  path1 ≠ path2 → is_Some (index s1) →
  load other path1 (save s2 path2 (save s1 path1 fs)) = (s1, Ok ()).
Proof.
  intros Hne Hix. rewrite <-(load_after_save s1 path1 fs other Hix).
  apply load_reads_two_files; apply save_lookup_other.
  - intros Heq. by apply string_app_inj_r in Heq.
  - apply index_pkl_stems_differ.
  - apply not_eq_sym, index_pkl_stems_differ.
  - intros Heq. by apply string_app_inj_r in Heq.
Qed.

(** [save] does not clear an old index file.  Saving a store that has no
    index over a path where an index file exists, then loading, gives the
    saved records joined to the old index. *)
Theorem save_without_index_keeps_old_index_file (self : KeywordVectorStore)
    (path : string) (fs : gmap string file) (old : IndexFlatIP) :
  index self = None →
  fs !! (path +:+ ".index") = Some (FaissIndexFile old) →
  load new_store path (save self path fs) =
    ({| index := Some old; keyword_data := keyword_data self;
        embeddings := embeddings self |}, Ok ()).
Proof.
  intros Hix Hold. unfold load, load_index, load_records, save. rewrite Hix.
  rewrite lookup_insert_ne by (apply not_eq_sym, index_pkl_paths_differ).
  rewrite Hold. cbn. by rewrite lookup_insert_eq.
Qed.

End PersistenceExtras.

Lemma stores_under_different_stems_do_not_interfere_witness :
  @load demo_model new_store "a"
    (save new_store "b" (save demo_store "a" ∅)) = (demo_store, Ok ()).
Proof.
  apply (@stores_under_different_stems_do_not_interfere demo_model).
  - discriminate.
  - eexists. vm_compute. reflexivity.
Defined.

Lemma save_without_index_keeps_old_index_file_witness :
  @load demo_model new_store "a"
    (save new_store "a" (save demo_store "a" ∅)) =
    (@mkStore demo_model
       (Some (@mkIndex demo_model 2 [[71%Z; 1%Z]]))
       (keyword_data (@new_store demo_model))
       (embeddings (@new_store demo_model)), Ok ()).
Proof.
  apply (@save_without_index_keeps_old_index_file demo_model).
  - reflexivity.
  - vm_compute. reflexivity.
Defined.

(** * Further properties of ingestion, start-up and the Query Engine *)

Section RAGExtras.
Context `{!AdsApi, !EmbeddingModel, !Formatting, !ChatApi}.

Lemma rag_eta (self : GPTKeywordRAG) :
  {| ads_extractor := ads_extractor self; vector_store := vector_store self;
     vector_store_path := vector_store_path self |} = self.
Proof. by destruct self. Qed.


(** An update that raises (at the fetch or at the add) changes neither
    the object nor the files. *)
Theorem update_failure_changes_nothing (self self' : GPTKeywordRAG)
    (keywords : list string) (location_ids : option (list string))
    (fs fs' : gmap string file) (calls : list GenerateKeywordIdeasRequest)
    (e : exn) :
  update_keyword_data self keywords location_ids fs =
    (self', fs', calls, Raise e) →
  self' = self ∧ fs' = fs.
Proof.
  unfold update_keyword_data.
  destruct (get_keyword_ideas _ _ _ _).2 as [kds|e1]; [|by intros [= <- <-]].
  destruct (add_keywords_cases (vector_store self) kds)
    as [(e2 & -> & _)|(_ & d & ->)]; cbn.
  - intros [= <- <-]. by rewrite rag_eta.
  - by intros [=].
Qed.

(** When the upstream service answers with no idea at all, the update
    raises [IndexError] after its one request: the empty batch cannot be
    embedded, and nothing is stored or saved. *)
Theorem update_with_no_ideas_raises (self : GPTKeywordRAG) (cid : string)
    (keywords : list string) (location_ids : option (list string))
    (fs : gmap string file) :
  customer_id (ads_extractor self) = Some cid → cid ≠ EmptyString →
  generate_keyword_ideas (build_request cid keywords location_ids "1000")
    = Ok [] →
  update_keyword_data self keywords location_ids fs =
    (self, fs, [build_request cid keywords location_ids "1000"],
     Raise (IndexError "tuple index out of range")).
Proof.
  intros Hcid Hne Hresp. unfold update_keyword_data, get_keyword_ideas.
  rewrite Hcid.
  assert (truthy_str (Some cid) = true) as -> by (by destruct cid).
  cbn [negb default]. unfold id. rewrite Hresp. cbn.
  rewrite add_keywords_empty. cbn. by rewrite rag_eta.
Qed.

(** What an update stored survives a restart: after an update that
    returned, an object constructed afresh over the resulting files, with
    the same path, holds exactly the store of the updated object. *)
Theorem update_survives_restart (self self' : GPTKeywordRAG)
    (keywords : list string) (location_ids : option (list string))
    (fs fs' : gmap string file) (calls : list GenerateKeywordIdeasRequest)
    (cid : string) :
  update_keyword_data self keywords location_ids fs = (self', fs', calls, Ok ()) →
  vector_store (new_rag cid (vector_store_path self) fs') = vector_store self'.
Proof.
  unfold update_keyword_data.
  destruct (get_keyword_ideas _ _ _ _).2 as [kds|e1]; [|by intros [=]].
  destruct (add_keywords_cases (vector_store self) kds)
    as [(e2 & -> & _)|(_ & d & ->)]; cbn; [by intros [=]|].
  intros [= <- <- _]. unfold new_rag, _load_existing_data. cbn.
  by rewrite load_after_save by (by eexists).
Qed.

(** An update that returned has appended, in order, the records fetched
    in its one request, and a store that had records and vectors paired
    still has them paired. *)
Theorem update_appends_fetched_records (self self' : GPTKeywordRAG)
    (keywords : list string) (location_ids : option (list string))
    (fs fs' : gmap string file) (calls : list GenerateKeywordIdeasRequest) :
  update_keyword_data self keywords location_ids fs = (self', fs', calls, Ok ()) →
  ∃ request response,
    calls = [request] ∧
    generate_keyword_ideas request = Ok response ∧
    keyword_data (vector_store self') =
      (keyword_data (vector_store self) ++
       imap keyword_data_of_idea response)%list ∧
    ads_extractor self' = ads_extractor self ∧
    vector_store_path self' = vector_store_path self ∧
    (store_inv (vector_store self) → store_inv (vector_store self')).
Proof.
  unfold update_keyword_data, get_keyword_ideas.
  destruct (negb _); [by intros [=]|].
  set (request := build_request _ _ _ _).
  destruct (generate_keyword_ideas request) as [response|ex] eqn:Hresp;
    [|by intros [=]].
  cbn [fst snd].
  pose proof (add_keywords_inv (vector_store self)
                (imap keyword_data_of_idea response)) as Hinv.
  destruct (add_keywords_cases (vector_store self)
              (imap keyword_data_of_idea response))
    as [(e2 & Heq & _)|(_ & d & Heq)]; rewrite Heq in Hinv |- *; cbn;
    [by intros [=]|].
  intros [= <- <- <-]. exists request, response. by split_and!.
Qed.



(** The retrieval runs outside the [try]: on a store with an index and
    records, a query asking for zero or fewer records raises
    [AssertionError] instead of returning text. *)
Theorem query_nonpositive_max_keywords_raises (self : GPTKeywordRAG)
    (user_query : string) (max_keywords : Z) (include_recommendations : bool) :
  is_Some (index (vector_store self)) →
  keyword_data (vector_store self) ≠ [] → (max_keywords ≤ 0)%Z →
  query self user_query max_keywords include_recommendations =
    Raise AssertionError.
Proof.
  intros [ix Hix] Hne Hk. unfold query, search. rewrite Hix.
  rewrite decide_False by (by destruct (keyword_data (vector_store self))).
  unfold index_search. case_decide; [|done].
  by destruct (Z.ltb_spec 0 max_keywords); [lia|].
Qed.

(** When the completion call returns, a query returns the text of its
    first choice; a completion without any choice is caught like a
    failure and gives the error text for the failed read of
    [choices[0]]. *)
Theorem query_returns_first_choice (self : GPTKeywordRAG)
    (user_query : string) (max_keywords : Z) (include_recommendations : bool)
    (keyword_results : list (KeywordData * Z)) (response : ChatCompletion) :
  search (vector_store self) user_query max_keywords = Ok keyword_results →
  chat_completions_create
    (completion_request user_query keyword_results include_recommendations)
    = Ok response →
  query self user_query max_keywords include_recommendations =
    Ok (match choices response with
        | content :: _ => content
        | [] => "Error generating response: list index out of range"
        end).
Proof.
  intros Hsearch Hchat. unfold query. rewrite Hsearch. cbn. rewrite Hchat.
  cbn. by destruct (choices response).
Qed.

(** [setup_rag_system] accepts any non-empty customer id, but an id made
    of dashes only is stored as the empty text: the object is built, and
    every update then raises [ValueError] without a request upstream. *)
Theorem setup_accepts_dash_only_customer_id (env : gmap string string)
    (fs : gmap string file) (key cid : string) :
  env !! "OPENAI_API_KEY" = Some key → key ≠ EmptyString →
  env !! "GOOGLE_ADS_CUSTOMER_ID" = Some cid → cid ≠ EmptyString →
  Forall (λ a, a = "-"%char) (String.list_ascii_of_string cid) →
  ∃ rag, setup_rag_system env fs = Ok rag ∧
    ∀ keywords location_ids fs',
      update_keyword_data rag keywords location_ids fs' =
        (rag, fs', [],
         Raise (ValueError "Customer ID must be set before making API calls")).
Proof.
  intros Hkey Hkne Hcid Hcne Hdash. unfold setup_rag_system.
  rewrite Hkey, Hcid.
  assert (truthy_str (Some key) = true) as -> by (by destruct key).
  assert (truthy_str (Some cid) = true) as -> by (by destruct cid).
  cbn [negb default]. eexists. split; [done|].
  intros keywords location_ids fs'. unfold update_keyword_data.
  assert (remove_char "-" cid = EmptyString) as Hempty.
  { apply string_chars_inj. rewrite remove_char_chars. simpl.
    apply filter_keeps_none. eapply Forall_impl; [exact Hdash|].
    by intros a -> ?. }
  unfold get_keyword_ideas, new_rag, _load_existing_data. cbn.
  by rewrite Hempty.
Qed.

End RAGExtras.

(** * Further properties of the Stats Reporter *)

Lemma value_counts_lookup (xs : list string) (c : string) :
  value_counts xs !! c =
    if decide (length (filter (λ x, x = c) xs) = 0) then None
    else Some (Z.of_nat (length (filter (λ x, x = c) xs))).
Proof.
  induction xs as [|x xs IH]; [done|].
  unfold value_counts in *. cbn [foldr].
  destruct (decide (x = c)) as [->|Hne].
  - rewrite lookup_insert_eq, IH, filter_cons_True by done. cbn [length].
    set (n := length (filter (λ x, x = c) xs)).
    rewrite (decide_False (P := S n = 0)) by lia.
    destruct (decide (n = 0)) as [->|]; cbn; f_equal; lia.
  - by rewrite lookup_insert_ne, IH, filter_cons_False by done.
Qed.

Lemma merge_sort_Z_permutation (xs ys : list Z) :
  xs ≡ₚ ys → merge_sort Z.le xs = merge_sort Z.le ys.
Proof.
  intros Hperm. apply (Sorted_unique Z.le).
  - apply Sorted_merge_sort; apply _.
  - apply Sorted_merge_sort; apply _.
  - by rewrite !merge_sort_Permutation.
Qed.

Lemma length_filter_permutation {A} (P : A → Prop) `{!∀ x, Decision (P x)}
    (l1 l2 : list A) :
  l1 ≡ₚ l2 → length (filter P l1) = length (filter P l2).
Proof.
  induction 1 as [|x l1 l2 _ IH|x y l|l1 l2 l3 _ IH1 _ IH2]; [done| | |congruence].
  - rewrite !filter_cons. case_decide; simpl; by rewrite IH.
  - rewrite !filter_cons. by repeat case_decide.
Qed.

Section StatsExtras.
Context `{!EmbeddingModel}.

(** With at least one record the statistics have exactly seven keys, and
    [total_keywords] is the number of records. *)
Theorem stats_keys_with_records (self : GPTKeywordRAG) :
  keyword_data (vector_store self) ≠ [] →
  dom (get_keyword_stats self) =
    {[ "total_keywords"; "avg_search_volume"; "median_search_volume";
       "avg_cpc"; "competition_distribution"; "high_volume_keywords";
       "low_competition_keywords" ]} ∧
  get_keyword_stats self !! "total_keywords" =
    Some (StatInt (Z.of_nat (length (keyword_data (vector_store self))))).
Proof.
  intros Hne. unfold get_keyword_stats.
  destruct (keyword_data (vector_store self)) as [|kd kds] eqn:Hkds; [done|].
  split.
  - cbn [list_to_map foldr fst snd uncurry]. rewrite !dom_insert_L, dom_empty_L.
    set_solver.
  - done.
Qed.

(** The competition distribution counts the records of each label (a
    label no record carries is absent), and its entry for LOW is the
    value reported as [low_competition_keywords]. *)
Theorem stats_distribution_counts_records (self : GPTKeywordRAG) :
  keyword_data (vector_store self) ≠ [] →
  ∃ d,
    get_keyword_stats self !! "competition_distribution" = Some (StatDict d) ∧
    (∀ label,
       default 0%Z (d !! label) =
         Z.of_nat (length (filter (λ kd, competition kd = label)
                             (keyword_data (vector_store self)))) ∧
       (d !! label = None ↔
          Forall (λ kd, competition kd ≠ label)
            (keyword_data (vector_store self)))) ∧
    get_keyword_stats self !! "low_competition_keywords" =
      Some (StatInt (default 0%Z (d !! "LOW"))).
Proof.
  intros Hne. unfold get_keyword_stats.
  destruct (keyword_data (vector_store self)) as [|kd kds] eqn:Hkds; [done|].
  rewrite <-Hkds. clear Hkds Hne kd kds.
  set (df := keyword_data (vector_store self)).
  assert (∀ label,
            length (filter (λ x, x = label) (competition <$> df)) =
            length (filter (λ kd, competition kd = label) df)) as Hcount.
  { intros label. induction df as [|kd df IH]; [done|]. csimpl.
    destruct (decide (competition kd = label)).
    - rewrite !filter_cons_True by done. cbn [length]. by rewrite IH.
    - by rewrite !filter_cons_False by done. }
  exists (value_counts (competition <$> df)). split_and!; [done| |].
  - intros label. rewrite value_counts_lookup, Hcount. split.
    + case_decide as Hz; [by rewrite Hz|done].
    + case_decide as Hz; split; try done.
      * intros _. apply Forall_forall. intros kd Hkd Hlabel.
        assert (kd ∈ filter (λ kd, competition kd = label) df) as Hin
          by (by apply list_elem_of_filter).
        destruct (filter _ df); [by apply elem_of_nil in Hin|done].
      * intros Hall. exfalso. apply Hz.
        by rewrite (filter_keeps_none _ df Hall).
  - rewrite value_counts_lookup, Hcount.
    cbn [list_to_map foldr fst snd uncurry].
    rewrite !lookup_insert_ne, lookup_insert_eq by done.
    do 2 f_equal. case_decide as Hz; [by rewrite Hz|done].
Qed.

(** The order of the records does not matter to the total, the median,
    the distribution and the two counts: two objects whose record lists
    are permutations of each other report the same values for them. *)
Theorem stats_ignore_record_order (self self' : GPTKeywordRAG) (key : string) :
  keyword_data (vector_store self) ≡ₚ keyword_data (vector_store self') →
  key ∈ ["total_keywords"; "median_search_volume";
         "competition_distribution"; "high_volume_keywords";
         "low_competition_keywords"] →
  get_keyword_stats self !! key = get_keyword_stats self' !! key.
Proof.
  intros Hperm Hkey. unfold get_keyword_stats.
  destruct (keyword_data (vector_store self)) as [|kd kds] eqn:Hkds.
  { apply Permutation_nil in Hperm. by rewrite Hperm. }
  destruct (keyword_data (vector_store self')) as [|kd' kds'] eqn:Hkds'.
  { symmetry in Hperm. by apply Permutation_nil in Hperm. }
  rewrite <-Hkds, <-Hkds'. rewrite <-Hkds, <-Hkds' in Hperm.
  clear Hkds Hkds' kd kds kd' kds'.
  set (df := keyword_data (vector_store self)) in *.
  set (df' := keyword_data (vector_store self')) in *.
  assert (length df = length df') as Hlen by (by rewrite Hperm).
  assert (median (search_volume <$> df) = median (search_volume <$> df'))
    as Hmedian.
  { unfold median. rewrite !length_fmap, Hlen.
    by rewrite (merge_sort_Z_permutation (search_volume <$> df)
                  (search_volume <$> df')) by (by rewrite Hperm). }
  assert (value_counts (competition <$> df) =
          value_counts (competition <$> df')) as Hdist.
  { apply map_eq. intros c. rewrite !value_counts_lookup.
    by rewrite (length_filter_permutation (λ x, x = c) (competition <$> df)
                  (competition <$> df')) by (by rewrite Hperm). }
  assert (∀ (P : KeywordData → Prop) `{!∀ kd, Decision (P kd)},
            length (filter P df) = length (filter P df')) as Hfilter.
  { intros P ?. by apply length_filter_permutation. }
  cbn [list_to_map foldr fst snd uncurry].
  repeat (apply elem_of_cons in Hkey as [->|Hkey]);
    [..|by apply elem_of_nil in Hkey];
    rewrite ?lookup_insert_eq;
    repeat (rewrite lookup_insert_ne by done; rewrite ?lookup_insert_eq);
    by rewrite ?Hlen, ?Hmedian, ?Hdist, ?Hfilter.
Qed.

End StatsExtras.

(** * The further properties at concrete inputs *)

Lemma update_failure_changes_nothing_witness :
  let r := @update_keyword_data demo_ads demo_model demo_formatting
             unbound_rag ["seo"] None ∅ in
  r.1.1.1 = unbound_rag ∧ r.1.1.2 = ∅.
Proof.
  apply (@update_failure_changes_nothing demo_ads demo_model demo_formatting
           unbound_rag _ ["seo"] None ∅ _ []
           (ValueError "Customer ID must be set before making API calls")).
  reflexivity.
Defined.

Lemma update_with_no_ideas_raises_witness :
  @update_keyword_data no_ideas_ads demo_model demo_formatting
    (demo_rag demo_store) ["seo"] None ∅ =
    (demo_rag demo_store, ∅,
     [@build_request "1234567890" ["seo"] None "1000"],
     Raise (IndexError "tuple index out of range")).
Proof.
  apply (@update_with_no_ideas_raises no_ideas_ads demo_model demo_formatting
           (demo_rag demo_store) "1234567890").
  - reflexivity.
  - discriminate.
  - reflexivity.
Defined.

Lemma update_survives_restart_witness :
  let r := @update_keyword_data demo_ads demo_model demo_formatting
             (demo_rag new_store) ["seo"] None ∅ in
  vector_store (@new_rag demo_model "1234567890" "keyword_store" r.1.1.2) =
    vector_store r.1.1.1.
Proof.
  apply (@update_survives_restart demo_ads demo_model demo_formatting
           (demo_rag new_store) _ ["seo"] None ∅ _
           [@build_request "1234567890" ["seo"] None "1000"]).
  reflexivity.
Defined.

Lemma update_appends_fetched_records_witness :
  let r := @update_keyword_data demo_ads demo_model demo_formatting
             (demo_rag new_store) ["seo"] None ∅ in
  ∃ request response,
    r.1.2 = [request] ∧
    @generate_keyword_ideas demo_ads request = Ok response ∧
    keyword_data (vector_store r.1.1.1) =
      (keyword_data (vector_store (demo_rag new_store)) ++
       imap (@keyword_data_of_idea demo_ads) response)%list ∧
    ads_extractor r.1.1.1 = ads_extractor (demo_rag new_store) ∧
    vector_store_path r.1.1.1 = vector_store_path (demo_rag new_store) ∧
    (@store_inv demo_model demo_formatting (vector_store (demo_rag new_store)) →
     @store_inv demo_model demo_formatting (vector_store r.1.1.1)).
Proof.
  apply (@update_appends_fetched_records demo_ads demo_model demo_formatting
           (demo_rag new_store) _ ["seo"] None ∅
           (@update_keyword_data demo_ads demo_model demo_formatting
              (demo_rag new_store) ["seo"] None ∅).1.1.2).
  reflexivity.
Defined.



Lemma query_nonpositive_max_keywords_raises_witness :
  @query demo_model demo_formatting answering_chat (demo_rag demo_store)
    "which keywords are cheap?" 0 true = Raise AssertionError.
Proof.
  apply (@query_nonpositive_max_keywords_raises demo_model demo_formatting
           answering_chat).
  - eexists. vm_compute. reflexivity.
  - vm_compute. discriminate.
  - lia.
Defined.

Lemma query_returns_first_choice_witness :
  @query demo_model demo_formatting answering_chat (demo_rag demo_store)
    "which keywords are cheap?" 1 true =
    Ok (match choices {| choices := ["Target the long-tail keywords first."] |}
        with
        | content :: _ => content
        | [] => "Error generating response: list index out of range"
        end).
Proof.
  eapply (@query_returns_first_choice demo_model demo_formatting
            answering_chat (demo_rag demo_store)).
  - vm_compute. reflexivity.
  - reflexivity.
Defined.

Lemma setup_accepts_dash_only_customer_id_witness :
  ∃ rag,
    @setup_rag_system demo_model
      {[ "OPENAI_API_KEY" := "sk-test"; "GOOGLE_ADS_CUSTOMER_ID" := "--" ]} ∅
      = Ok rag ∧
    ∀ keywords location_ids fs',
      @update_keyword_data demo_ads demo_model demo_formatting rag keywords
        location_ids fs' =
        (rag, fs', [],
         Raise (ValueError "Customer ID must be set before making API calls")).
Proof.
  apply (@setup_accepts_dash_only_customer_id demo_ads demo_model
           demo_formatting _ ∅ "sk-test" "--").
  - reflexivity.
  - discriminate.
  - reflexivity.
  - discriminate.
  - repeat constructor.
Defined.

Lemma stats_keys_with_records_witness :
  dom (@get_keyword_stats demo_model five_rag) =
    {[ "total_keywords"; "avg_search_volume"; "median_search_volume";
       "avg_cpc"; "competition_distribution"; "high_volume_keywords";
       "low_competition_keywords" ]} ∧
  @get_keyword_stats demo_model five_rag !! "total_keywords" =
    Some (StatInt (Z.of_nat (length (keyword_data (vector_store five_rag))))).
Proof.
  apply (@stats_keys_with_records demo_model five_rag).
  vm_compute. discriminate.
Defined.

Lemma stats_distribution_counts_records_witness :
  ∃ d,
    @get_keyword_stats demo_model five_rag !! "competition_distribution" =
      Some (StatDict d) ∧
    (∀ label,
       default 0%Z (d !! label) =
         Z.of_nat (length (filter (λ kd, competition kd = label)
                             (keyword_data (vector_store five_rag)))) ∧
       (d !! label = None ↔
          Forall (λ kd, competition kd ≠ label)
            (keyword_data (vector_store five_rag)))) ∧
    @get_keyword_stats demo_model five_rag !! "low_competition_keywords" =
      Some (StatInt (default 0%Z (d !! "LOW"))).
Proof.
  apply (@stats_distribution_counts_records demo_model five_rag).
  vm_compute. discriminate.
Defined.

Lemma stats_ignore_record_order_witness :
  @get_keyword_stats demo_model five_rag !! "median_search_volume" =
  @get_keyword_stats demo_model
    (demo_rag {| index := None;
                 keyword_data := volume_kd <$> [200; 100; 300; 400; 500]%Z;
                 embeddings := [] |}) !! "median_search_volume".
Proof.
  apply (@stats_ignore_record_order demo_model).
  - apply perm_swap.
  - right. left.
Defined.
